(** * Weather assistant: tool backend (server.py) and agent client
      (agent_client.py)

    A shallow embedding of the two programs of the repository, and the
    properties of their specification.

    Modelling boundary.  Both programs are glue around external services
    (the weather provider reached through httpx, the model provider reached
    through the OpenAI client, the MCP session).  Each external call is
    represented by its outcome: either the value it returns or the Python
    exception it raises.  Exceptions are those deriving from [Exception];
    interpreter-level [BaseException]s (task cancellation, interpreter exit)
    are outside the model, and leaving an [async with] block is taken not
    to raise.  Numbers read from the provider's JSON (temperature, humidity)
    are carried as the text Python's formatting produces for them. *)

From Stdlib Require Import Ascii.
From stdpp Require Import base numbers list strings pretty gmap sorting.

Local Open Scope Z_scope.

(** ** Python values shared by both programs *)

(** Python exceptions, as far as the handlers of the programs tell them
    apart: [except httpx.HTTPStatusError] reads [e.response.text],
    [except Exception] reads [str(e)]. *)
Inductive exn : Type :=
  | HTTPStatusError (response_text : string) (message : string)
  | PyException (message : string).

(** [str(e)] *)
Definition str_exn (e : exn) : string :=
  match e with
  | HTTPStatusError _ m => m
  | PyException m => m
  end.

(** Outcome of evaluating Python code: a value, or a raised exception. *)
Inductive outcome (A : Type) : Type :=
  | Return (a : A)
  | Raise (e : exn).
Arguments Return {A} a.
Arguments Raise {A} e.

Definition obind {A B} (c : outcome A) (k : A -> outcome B) : outcome B :=
  match c with
  | Return a => k a
  | Raise e => Raise e
  end.

#[global] Instance outcome_ret : MRet outcome := @Return.
#[global] Instance outcome_bind : MBind outcome := fun A B k c => obind c k.

(** [d[k]] on a dict whose key may be missing: [KeyError(k)], whose [str]
    is the [repr] of the key. *)
Definition getitem {A} (key : string) (field : option A) : outcome A :=
  match field with
  | Some v => Return v
  | None => Raise (PyException ("'" +:+ key +:+ "'"))
  end.

(** [l[0]] on a list *)
Definition getitem0 {A} (l : list A) : outcome A :=
  match l with
  | x :: _ => Return x
  | [] => Raise (PyException "list index out of range")
  end.

(** Truthiness of an optional string: [None] and the empty string are
    false. *)
Definition truthy_str (s : option string) : bool :=
  match s with
  | None => false
  | Some EmptyString => false
  | Some (String _ _) => true
  end.

(** [sep.join(l)] *)
Fixpoint join (sep : string) (l : list string) : string :=
  match l with
  | [] => EmptyString
  | [x] => x
  | x :: rest => x +:+ sep +:+ join sep rest
  end.

(** [s.split(" ")[0]]: the text before the first space (all of [s] when
    it has none). *)
Fixpoint split_space_0 (s : string) : string :=
  match s with
  | EmptyString => EmptyString
  | String c rest =>
      if Ascii.eqb c " "%char then EmptyString
      else String c (split_space_0 rest)
  end.

Definition newline : string := String (Ascii.ascii_of_nat 10) EmptyString.

(** The degree sign of the source, as its two UTF-8 bytes. *)
Definition degree : string :=
  String (Ascii.ascii_of_nat 194) (String (Ascii.ascii_of_nat 176) EmptyString).

(** ** The tool backend: server.py *)
Module Server.

(** Module-level configuration read from the environment. *)
Record Config : Type := {
  OPENWEATHER_API_KEY : option string;
  OPENWEATHER_BASE_URL : string
}.

(** One GET sent to the weather provider. *)
Record Request : Type := {
  url : string;
  params : list (string * string)
}.

(** The provider's JSON, in the shape the tools read it.  Every key may be
    missing. *)
Record WeatherEntry : Type := { description : option string }.
Record MainBlock : Type := { temp : option string; humidity : option string }.

Record CurrentData : Type := {
  cur_weather : option (list WeatherEntry);
  cur_main : option MainBlock
}.

Record ForecastItem : Type := {
  dt_txt : option string;
  weather : option (list WeatherEntry);
  main : option MainBlock
}.

Record ForecastData : Type := { list_ : option (list ForecastItem) }.

(** What [client.get(...)], [resp.raise_for_status()] and [resp.json()]
    amount to for one request: the decoded body or an exception. *)
Definition Provider (D : Type) : Type := Request -> outcome D.

(** [_get_weather_data]: the result, with the requests sent on the way.
    A key that is [None] or empty is not set. *)
Definition _get_weather_data {D} (cfg : Config) (http : Provider D)
    (endpoint : string) (params0 : list (string * string))
  : outcome D * list Request :=
  match OPENWEATHER_API_KEY cfg with
  | Some (String a k) =>
      let key := String a k in
      let req := {| url := OPENWEATHER_BASE_URL cfg +:+ "/" +:+ endpoint;
                    params := params0 ++ [("appid", key); ("units", "metric")] |} in
      (http req, [req])
  | _ => (Raise (PyException "OPENWEATHER_API_KEY is not set."), [])
  end.

(** The two handlers both tools end with: [except httpx.HTTPStatusError]
    first, then [except Exception]. *)
Definition handle (what : string) (body : outcome string) : outcome string :=
  match body with
  | Return s => Return s
  | Raise (HTTPStatusError text _) =>
      Return ("Error fetching " +:+ what +:+ ": " +:+ text)
  | Raise (PyException m) => Return ("An error occurred: " +:+ m)
  end.

(** The [try] block of [get_current_weather]: reading the reply, then the
    fetch followed by the reading. *)
Definition summarise_current (city : string) (data : CurrentData) : outcome string :=
  w ← getitem "weather" (cur_weather data);
  w0 ← getitem0 w;
  weather_desc ← getitem "description" (description w0);
  m ← getitem "main" (cur_main data);
  temp ← getitem "temp" (temp m);
  m' ← getitem "main" (cur_main data);
  humidity ← getitem "humidity" (humidity m');
  Return ("Current weather in " +:+ city +:+ ": " +:+ weather_desc
          +:+ ", Temperature: " +:+ temp +:+ degree +:+ "C, Humidity: "
          +:+ humidity +:+ "%").

Definition current_weather_try (cfg : Config) (http : Provider CurrentData)
    (city : string) : outcome string * list Request :=
  let '(fetched, sent) := _get_weather_data cfg http "weather" [("q", city)] in
  (data ← fetched; summarise_current city data, sent).

Definition get_current_weather (cfg : Config) (http : Provider CurrentData)
    (city : string) : outcome string * list Request :=
  let '(body, sent) := current_weather_try cfg http city in
  (handle "weather" body, sent).

(** The [for item in data.get("list", [])] loop, with its two accumulators.
    It leaves by exhausting the items, by [break], or by an exception. *)
Fixpoint forecast_loop (days : Z) (items : list ForecastItem)
    (forecasts : list string) (seen_dates : gset string)
  : outcome (list string) :=
  match items with
  | [] => Return forecasts
  | item :: rest =>
      stamp ← getitem "dt_txt" (dt_txt item);
      let date := split_space_0 stamp in
      if decide (date ∈ seen_dates) then
        forecast_loop days rest forecasts seen_dates
      else
        let seen_dates := seen_dates ∪ {[date]} in
        w ← getitem "weather" (weather item);
        w0 ← getitem0 w;
        desc ← getitem "description" (description w0);
        m ← getitem "main" (main item);
        temp ← getitem "temp" (temp m);
        let forecasts :=
          forecasts ++ [date +:+ ": " +:+ desc +:+ ", " +:+ temp +:+ degree +:+ "C"] in
        if Z.of_nat (length forecasts) >=? days then Return forecasts
        else forecast_loop days rest forecasts seen_dates
  end.

(** The first line of a forecast. *)
Definition header (city : string) : string :=
  "Forecast for " +:+ city +:+ ":" +:+ newline.

(** The [try] block of [get_forecast]. *)
Definition forecast_try (cfg : Config) (http : Provider ForecastData)
    (city : string) (days : Z) : outcome string * list Request :=
  let days := if days >? 5 then 5 else days in
  let '(fetched, sent) := _get_weather_data cfg http "forecast" [("q", city)] in
  (data ← fetched;
   forecasts ← forecast_loop days (default [] (list_ data)) [] ∅;
   Return (header city +:+ join newline forecasts),
   sent).

Definition get_forecast (cfg : Config) (http : Provider ForecastData)
    (city : string) (days : Z) : outcome string * list Request :=
  let '(body, sent) := forecast_try cfg http city days in
  (handle "forecast" body, sent).

End Server.

(** ** The agent client: agent_client.py *)
Module Client.

(** JSON values, for tool arguments and schemas.  Numbers keep their
    literal text. *)
#[local] Unset Elimination Schemes.
Inductive Json : Type :=
  | JNull
  | JBool (b : bool)
  | JNumber (literal : string)
  | JString (s : string)
  | JArray (items : list Json)
  | JObject (fields : list (string * Json)).
#[local] Set Elimination Schemes.

(** The three shapes of dict the program appends to
    [st.session_state.messages]. *)
Inductive Message : Type :=
  | UserMessage (content : string)
  | AssistantMessage (content : option string)
  | ToolMessage (tool_call_id : option string) (content : string).

Inductive Role : Type := user | assistant | tool.

Definition role (m : Message) : Role :=
  match m with
  | UserMessage _ => user
  | AssistantMessage _ => assistant
  | ToolMessage _ _ => tool
  end.

Definition is_tool (m : Message) : bool :=
  match m with ToolMessage _ _ => true | _ => false end.

(** A tool as [session.list_tools()] describes it, and as it is declared
    to the model. *)
Record Tool : Type := {
  tool_name : string;
  tool_description : option string;
  inputSchema : Json
}.

Record OpenAITool : Type := {
  fn_name : string;
  fn_description : string;
  fn_parameters : Json;
  fn_strict : bool
}.

(** The model's reply. *)
Record ToolCall : Type := {
  call_id : option string;
  call_name : string;
  call_arguments : option string
}.

Record ChatMessage : Type := {
  msg_content : option string;
  tool_calls : option (list ToolCall)
}.

Record ChatCompletion : Type := { choices : list ChatMessage }.

Record ChatRequest : Type := {
  req_model : string;
  req_messages : list Message;
  req_tools : option (list OpenAITool);
  req_tool_choice : option string
}.

(** The result of [session.call_tool]. *)
Inductive ContentBlock : Type :=
  | TextContent (text : string)
  | OtherContent (str : string).

Inductive ToolResult : Type :=
  | WithContent (content : list ContentBlock)
  | WithoutContent (str : string).

(** What the program does to the outside, in order. *)
Inductive Event : Type :=
  | EvHttpGet (url : string)
  | EvStError (text : string)
  | EvSseClient (url : string)
  | EvClientSession
  | EvInitialize
  | EvListTools
  | EvChatCreate (req : ChatRequest)
  | EvCallTool (name : string) (args : Json).

(** The outside: the outcome of every external call the turn can make.
    [session_call_tool i] answers the invocation made for the [i]-th tool
    call of the model's reply. *)
Record World : Type := {
  httpx_get : string -> outcome Z;
  sse_client : string -> outcome unit;
  client_session : outcome unit;
  session_initialize : outcome unit;
  session_list_tools : outcome (list Tool);
  chat_completions_create : ChatRequest -> outcome ChatCompletion;
  session_call_tool : nat -> string -> Json -> outcome ToolResult;
  json_loads : string -> outcome Json
}.

Record Config : Type := {
  SERVER_URL : string;
  OPENROUTER_API_KEY : option string
}.

(** The mutable state of a turn: the transcript and the effects so far. *)
Record State : Type := {
  messages : list Message;
  trace : list Event
}.

(** A computation that may raise; state changes made before the raise
    persist. *)
Definition M (A : Type) : Type := State -> outcome A * State.

Definition ret {A} (a : A) : M A := fun st => (Return a, st).

Definition bind {A B} (c : M A) (k : A -> M B) : M B :=
  fun st =>
    match c st with
    | (Return a, st') => k a st'
    | (Raise e, st') => (Raise e, st')
    end.

#[global] Instance M_ret : MRet M := @ret.
#[global] Instance M_bind : MBind M := fun A B k c => bind c k.

(** [try: c  except Exception as e: h e] *)
Definition try_except {A} (c : M A) (h : exn -> M A) : M A :=
  fun st =>
    match c st with
    | (Return a, st') => (Return a, st')
    | (Raise e, st') => h e st'
    end.

(** [st.session_state.messages.append(m)] *)
Definition append_message (m : Message) : M unit :=
  fun st => (Return tt, {| messages := messages st ++ [m]; trace := trace st |}).

(** Reading the transcript for the model: every entry is a dict, so the
    normalisation loop passes each one through. *)
Definition get_messages : M (list Message) :=
  fun st => (Return (messages st), st).

Definition emit (e : Event) : M unit :=
  fun st => (Return tt, {| messages := messages st; trace := trace st ++ [e] |}).

(** An external call: recorded, then its outcome. *)
Definition external {A} (e : Event) (o : outcome A) : M A :=
  fun st => (o, {| messages := messages st; trace := trace st ++ [e] |}).

Definition st_error (text : string) : M unit := emit (EvStError text).

(** [s.startswith(p)] *)
Fixpoint startswith (p s : string) : bool :=
  match p, s with
  | EmptyString, _ => true
  | String a p', String b s' => if Ascii.eqb a b then startswith p' s' else false
  | String _ _, EmptyString => false
  end.

(** [s.replace(old, new)] for a non-empty [old]: every occurrence, found
    left to right without overlap.  [skip] counts the characters of a
    matched occurrence still to be dropped. *)
Fixpoint replace_from (old new : string) (skip : nat) (s : string) : string :=
  match s with
  | EmptyString => EmptyString
  | String c rest =>
      match skip with
      | S k => replace_from old new k rest
      | O =>
          if startswith old s
          then new +:+ replace_from old new (String.length old - 1) rest
          else String c (replace_from old new O rest)
      end
  end.

Definition replace (old new s : string) : string := replace_from old new O s.

Definition health_url (cfg : Config) : string :=
  replace "/mcp" "/health" (SERVER_URL cfg).

(** The conversion of the discovered tools to the model's format. *)
Definition to_openai_tool (t : Tool) : OpenAITool :=
  {| fn_name := tool_name t;
     fn_description :=
       (if truthy_str (tool_description t)
        then default EmptyString (tool_description t) else EmptyString);
     fn_parameters := inputSchema t;
     fn_strict := true |}.

(** [call_llm_in_thread]: the keyword arguments form the request. *)
Definition call_llm_in_thread (w : World) (req : ChatRequest) : M ChatCompletion :=
  external (EvChatCreate req) (chat_completions_create w req).

(** [response.choices[0].message] *)
Definition first_choice (r : ChatCompletion) : M ChatMessage :=
  fun st => (getitem0 (choices r), st).

(** [json.loads(tool_call.function.arguments or "{}")], with [{}] on any
    exception. *)
Definition parse_arguments (w : World) (tool_call : ToolCall) : Json :=
  let text := if truthy_str (call_arguments tool_call)
              then default "{}" (call_arguments tool_call) else "{}" in
  match json_loads w text with
  | Return v => v
  | Raise _ => JObject []
  end.

(** The text of a tool result: one line per content block. *)
Fixpoint format_content (blocks : list ContentBlock) (output_text : string) : string :=
  match blocks with
  | [] => output_text
  | TextContent text :: rest => format_content rest (output_text +:+ text +:+ newline)
  | OtherContent str :: rest => format_content rest (output_text +:+ str +:+ newline)
  end.

Definition format_result (result : ToolResult) : string :=
  match result with
  | WithContent content => format_content content EmptyString
  | WithoutContent str => str
  end.

(** The [for tool_call in assistant_msg.tool_calls] loop; [i] is the
    position of the head of [calls] in the model's list.  [None] stands for
    the [continue] of the handler. *)
Fixpoint run_tool_calls (w : World) (i : nat) (calls : list ToolCall) : M unit :=
  match calls with
  | [] => ret tt
  | tool_call :: rest =>
      let tool_name := call_name tool_call in
      let tool_args := parse_arguments w tool_call in
      called ← try_except
        (result ← external (EvCallTool tool_name tool_args)
                     (session_call_tool w i tool_name tool_args);
         ret (Some result))
        (fun te =>
           append_message
             (ToolMessage (call_id tool_call)
                ("Tool " +:+ tool_name +:+ " call failed: " +:+ str_exn te)) ;;
           ret None);
      match called with
      | Some result =>
          append_message (ToolMessage (call_id tool_call) (format_result result))
      | None => ret tt
      end ;;
      run_tool_calls w (S i) rest
  end.

(** Truthiness of [assistant_msg.tool_calls]: [None] and the empty list are
    false. *)
Definition requested_calls (m : ChatMessage) : list ToolCall :=
  default [] (tool_calls m).

Definition model_name : string := "openai/gpt-4o-mini".

(** The keyword arguments of the two model calls. *)
Definition first_request (mcp_tools : list Tool) (llm_messages : list Message)
  : ChatRequest :=
  {| req_model := model_name; req_messages := llm_messages;
     req_tools := Some (map to_openai_tool mcp_tools);
     req_tool_choice := Some "auto" |}.

Definition final_request (final_msgs : list Message) : ChatRequest :=
  {| req_model := model_name; req_messages := final_msgs;
     req_tools := None; req_tool_choice := None |}.

(** The body of the [try] that starts with [async with sse_client(...)]. *)
Definition session_body (w : World) (cfg : Config) : M unit :=
  external (EvSseClient (SERVER_URL cfg)) (sse_client w (SERVER_URL cfg)) ;;
  external EvClientSession (client_session w) ;;
  external EvInitialize (session_initialize w) ;;
  mcp_tools ← external EvListTools (session_list_tools w);
  llm_messages ← get_messages;
  response ← call_llm_in_thread w (first_request mcp_tools llm_messages);
  assistant_msg ← first_choice response;
  match requested_calls assistant_msg with
  | _ :: _ =>
      append_message (AssistantMessage (msg_content assistant_msg)) ;;
      run_tool_calls w O (requested_calls assistant_msg) ;;
      final_msgs ← get_messages;
      response_final ← call_llm_in_thread w (final_request final_msgs);
      final ← first_choice response_final;
      append_message (AssistantMessage (msg_content final))
  | [] => append_message (AssistantMessage (msg_content assistant_msg))
  end.

(** [run_agent_turn(user_input)] *)
Definition run_agent_turn (w : World) (cfg : Config) (user_input : string) : M unit :=
  append_message (UserMessage user_input) ;;
  probe ← try_except
    (status ← external (EvHttpGet (health_url cfg)) (httpx_get w (health_url cfg));
     if decide (status = 200) then ret true
     else (st_error ("Backend health check failed: " +:+ pretty status) ;; ret false))
    (fun e => st_error ("Backend health check error: " +:+ str_exn e) ;; ret false);
  if probe : bool then
    try_except (session_body w cfg)
      (fun e =>
         st_error ("Connection / agent runtime error: " +:+ str_exn e) ;;
         append_message (AssistantMessage (Some ("[agent error] " +:+ str_exn e))))
  else ret tt.

(** How one run of the script ends. *)
Inductive ScriptEnd : Type := Stopped | Rerun | Idle.

(** One run of the script: the key check, the creation of the transcript,
    and the turn for the submitted prompt, if any.  The rendering of the
    transcript only displays and is left out.  The result holds the
    transcript kept in the session state ([None]: not created). *)
Definition script (w : World) (cfg : Config)
    (session_messages : option (list Message)) (prompt : option string)
  : ScriptEnd * option (list Message) * list Event :=
  if truthy_str (OPENROUTER_API_KEY cfg) then
    let st0 := {| messages := default [] session_messages; trace := [] |} in
    if truthy_str prompt then
      let '(_, st) := run_agent_turn w cfg (default EmptyString prompt) st0 in
      (Rerun, Some (messages st), trace st)
    else (Idle, Some (messages st0), [])
  else
    (Stopped, session_messages,
     [EvStError "OPENROUTER_API_KEY not found in environment variables."]).

End Client.

(** ** Notions used to state the properties of the forecast *)
Module ForecastSpec.
Import Server.

(** The calendar date of an entry, and the line printed for it. *)
Definition date_of (item : ForecastItem) : option string :=
  split_space_0 <$> dt_txt item.

Definition line_of (item : ForecastItem) : option string :=
  stamp ← dt_txt item;
  w ← weather item;
  w0 ← head w;
  desc ← description w0;
  m ← main item;
  t ← temp m;
  Some (split_space_0 stamp +:+ ": " +:+ desc +:+ ", " +:+ t +:+ degree +:+ "C").

Definition date_at (items : list ForecastItem) (i : nat) : option string :=
  items !! i ≫= date_of.

(** [line] is the line of the entry at position [i], and no earlier entry
    has the date of that entry. *)
Definition picks (items : list ForecastItem) (i : nat) (line : string) : Prop :=
  ∃ item, items !! i = Some item ∧ line_of item = Some line ∧
    ∀ j, (j < i)%nat → date_at items j ≠ date_at items i.

(** Positions in provider order, with pairwise distinct dates. *)
Definition later_other_date (items : list ForecastItem) (i i' : nat) : Prop :=
  (i < i')%nat ∧ date_at items i ≠ date_at items i'.

(** The request [get_forecast] sends when the key is set. *)
Definition forecast_request (cfg : Config) (key city : string) : Request :=
  {| url := OPENWEATHER_BASE_URL cfg +:+ "/" +:+ "forecast";
     params := [("q", city); ("appid", key); ("units", "metric")] |}.

(** The request [get_current_weather] sends when the key is set. *)
Definition weather_request (cfg : Config) (key city : string) : Request :=
  {| url := OPENWEATHER_BASE_URL cfg +:+ "/" +:+ "weather";
     params := [("q", city); ("appid", key); ("units", "metric")] |}.

(** Invariant of the forecast loop: [seen] holds the dates of the entries
    already consumed. *)
Definition seen_is (seen : gset string) (pre : list ForecastItem) : Prop :=
  ∀ d, d ∈ seen ↔ ∃ j, (j < length pre)%nat ∧ date_at pre j = Some d.

End ForecastSpec.

(** ** Notions used to state the properties of a turn *)
Module TurnSpec.
Import Client.

(** The call one iteration of the tool loop makes, and the message it
    appends. *)
Definition invocation (w : World) (tc : ToolCall) : Event :=
  EvCallTool (call_name tc) (parse_arguments w tc).

Definition tool_reply (w : World) (i : nat) (tc : ToolCall) : Message :=
  ToolMessage (call_id tc)
    match session_call_tool w i (call_name tc) (parse_arguments w tc) with
    | Return result => format_result result
    | Raise te => "Tool " +:+ call_name tc +:+ " call failed: " +:+ str_exn te
    end.

(** [content] is the text the loop stores for the [i]-th call: the
    formatted result, or the failure text when the invocation raises. *)
Definition answers (w : World) (i : nat) (tc : ToolCall) (content : string) : Prop :=
  match session_call_tool w i (call_name tc) (parse_arguments w tc) with
  | Return result => content = format_result result
  | Raise te => content = "Tool " +:+ call_name tc +:+ " call failed: " +:+ str_exn te
  end.

Fixpoint tool_replies (w : World) (i : nat) (calls : list ToolCall) : list Message :=
  match calls with
  | [] => []
  | tc :: rest => tool_reply w i tc :: tool_replies w (S i) rest
  end.

(** The effects of a turn up to and including the first model call. *)
Definition prelude (cfg : Config) (req : ChatRequest) : list Event :=
  [EvHttpGet (health_url cfg); EvSseClient (SERVER_URL cfg); EvClientSession;
   EvInitialize; EvListTools; EvChatCreate req].

(** The backend answers the probe, the session opens and lists [tools],
    and the first model call returns [msg] as its first choice. *)
Record reaches_reply (w : World) (cfg : Config) (transcript : list Message)
    (tools : list Tool) (msg : ChatMessage) : Prop := {
  probe_ok : httpx_get w (health_url cfg) = Return 200;
  sse_ok : sse_client w (SERVER_URL cfg) = Return tt;
  session_ok : client_session w = Return tt;
  initialize_ok : session_initialize w = Return tt;
  tools_ok : session_list_tools w = Return tools;
  reply_ok : ∃ response rest,
    chat_completions_create w (first_request tools transcript) = Return response ∧
    choices response = msg :: rest
}.

(** The probe did not answer 200, and the text shown to the user then. *)
Definition probe_failed (probe : outcome Z) : Prop :=
  match probe with
  | Return status => status ≠ 200
  | Raise _ => True
  end.

Definition probe_failure_text (probe : outcome Z) : string :=
  match probe with
  | Return status => "Backend health check failed: " +:+ pretty status
  | Raise e => "Backend health check error: " +:+ str_exn e
  end.

Definition tool_call_id_of (m : Message) : option string :=
  match m with ToolMessage id _ => id | _ => None end.

(** The identifier [id] is the identifier of exactly one of the requests. *)
Definition matches_exactly_one (requested : list (option string))
    (id : option string) : Prop :=
  exists! k : nat, requested !! k = Some id.

(** The tool calls the model issued in the turn: those of its first reply
    when the turn gets that far, and none when it does not.  At most one
    list of calls is issued in a turn. *)
Definition issued (w : World) (cfg : Config) (transcript : list Message)
    (calls : list ToolCall) : Prop :=
  (∃ tools msg, reaches_reply w cfg transcript tools msg ∧ calls = requested_calls msg) ∨
  (calls = [] ∧ ∀ tools msg, ¬ reaches_reply w cfg transcript tools msg).

(** The arguments text of a call is missing or is rejected by
    [json.loads]. *)
Definition malformed_arguments (w : World) (tc : ToolCall) : Prop :=
  call_arguments tc = None ∨
  ∃ text e, call_arguments tc = Some text ∧ json_loads w text = Raise e.

End TurnSpec.

(** ** Sample inputs *)
Module Samples.
Import Server.

Definition weather_cfg : Config :=
  {| OPENWEATHER_API_KEY := Some "k";
     OPENWEATHER_BASE_URL := "http://api.openweathermap.org/data/2.5" |}.

Definition no_weather_key_cfg : Config :=
  {| OPENWEATHER_API_KEY := None;
     OPENWEATHER_BASE_URL := "http://api.openweathermap.org/data/2.5" |}.

Definition entry (stamp desc t : string) : ForecastItem :=
  {| dt_txt := Some stamp;
     weather := Some [ {| description := Some desc |} ];
     main := Some {| temp := Some t; humidity := Some "80" |} |}.

Definition one_entry : Provider ForecastData :=
  λ _, Return {| list_ := Some [entry "2024-01-01 00:00:00" "light rain" "1.5"] |}.

Definition two_days : Provider ForecastData :=
  λ _, Return {| list_ := Some [entry "2024-01-01 21:00:00" "light rain" "1.5";
                                entry "2024-01-02 00:00:00" "clear sky" "3"] |}.

Definition six_days : Provider ForecastData :=
  λ _, Return {| list_ := Some [entry "2024-01-01 21:00:00" "light rain" "1.5";
                                entry "2024-01-02 00:00:00" "clear sky" "3";
                                entry "2024-01-02 03:00:00" "mist" "2";
                                entry "2024-01-03 00:00:00" "snow" "0";
                                entry "2024-01-04 00:00:00" "snow" "-1";
                                entry "2024-01-05 00:00:00" "clear sky" "4";
                                entry "2024-01-06 00:00:00" "clear sky" "5"] |}.

Definition city_not_found : Provider CurrentData :=
  λ _, Raise (HTTPStatusError "city not found" "Client error 404 Not Found").

Definition unreachable : Provider CurrentData :=
  λ _, Raise (PyException "All connection attempts failed").

Definition mist_without_main : CurrentData :=
  {| cur_weather := Some [ {| description := Some "mist" |} ]; cur_main := None |}.

Definition no_main : Provider CurrentData := λ _, Return mist_without_main.

End Samples.

Module Scenarios.
Import Client.

Definition backend_cfg : Config :=
  {| SERVER_URL := "http://localhost:5000/mcp"; OPENROUTER_API_KEY := Some "sk-or" |}.

Definition no_model_key_cfg : Config :=
  {| SERVER_URL := "http://localhost:5000/mcp"; OPENROUTER_API_KEY := None |}.

(** A [json.loads] that accepts the three smallest documents. *)
Definition loads (text : string) : outcome Json :=
  if decide (text = "{}") then Return (JObject [])
  else if decide (text = "[]") then Return (JArray [])
  else if decide (text = "null") then Return JNull
  else Raise (PyException "Expecting value").

Definition weather_tool : Tool :=
  {| tool_name := "get_current_weather";
     tool_description := Some "Current weather of a city";
     inputSchema := JObject [] |}.

Definition first_call : ToolCall :=
  {| call_id := Some "call_1"; call_name := "get_current_weather";
     call_arguments := Some "{city: Paris" |}.

Definition second_call : ToolCall :=
  {| call_id := Some "call_2"; call_name := "get_forecast";
     call_arguments := None |}.

Definition same_id_call : ToolCall :=
  {| call_id := Some "call_1"; call_name := "get_forecast";
     call_arguments := None |}.

Definition asks_two : ChatMessage :=
  {| msg_content := None; tool_calls := Some [first_call; second_call] |}.

Definition asks_two_same_id : ChatMessage :=
  {| msg_content := None; tool_calls := Some [first_call; same_id_call] |}.

Definition says_hello : ChatMessage :=
  {| msg_content := Some "Hello, ask me about the weather."; tool_calls := None |}.

Definition final_answer : ChatMessage :=
  {| msg_content := Some "It will rain in Paris."; tool_calls := None |}.

(** A world whose probe answers [probe] and whose model first replies
    [reply]; the first tool invocation times out, later ones succeed. *)
Definition world (probe : outcome Z) (reply : ChatMessage) : World :=
  {| httpx_get := λ _, probe;
     sse_client := λ _, Return tt;
     client_session := Return tt;
     session_initialize := Return tt;
     session_list_tools := Return [weather_tool];
     chat_completions_create := λ req,
       match req_tools req with
       | Some _ => Return {| choices := [reply] |}
       | None => Return {| choices := [final_answer] |}
       end;
     session_call_tool := λ i _ _,
       match i with
       | O => Raise (PyException "timed out")
       | S _ => Return (WithContent [TextContent "Forecast for Paris:"])
       end;
     json_loads := loads |}.

Definition fresh : State := {| messages := []; trace := [] |}.

End Scenarios.

(** ** Further notions for the forecast *)
Module ForecastModel.
Import Server ForecastSpec.

(** The entries of a list that open a new date: each entry is kept and the
    later entries of its date are dropped. *)
Fixpoint first_per_date (items : list ForecastItem) : list ForecastItem :=
  match items with
  | [] => []
  | item :: rest =>
      item :: filter (λ later, date_of later ≠ date_of item) (first_per_date rest)
  end.

(** An entry whose date is not in [seen]. *)
Definition unseen (seen : gset string) (item : ForecastItem) : Prop :=
  match date_of item with
  | Some d => d ∉ seen
  | None => True
  end.

#[global] Instance unseen_dec seen item : Decision (unseen seen item) :=
  match date_of item as o
    return Decision (match o with Some d => d ∉ seen | None => True end)
  with
  | Some d => decide (d ∉ seen)
  | None => left I
  end.

(** Every key the loop may read of the entry is present. *)
Definition complete (item : ForecastItem) : Prop := is_Some (line_of item).

(** The number of lines the loop prints at most: the day count cut to
    five, and never less than one. *)
Definition line_limit (days : Z) : nat := Z.to_nat (Z.max 1 (Z.min days 5)).

(** [c in s] for a character. *)
Fixpoint has_char (c : ascii) (s : string) : bool :=
  match s with
  | EmptyString => false
  | String a rest => Ascii.eqb a c || has_char c rest
  end.

End ForecastModel.

(** ** The display of the transcript: agent_client.py, the loop after
    [run_agent_turn] *)
Module Display.
Import Client.

(** What is drawn inside a chat bubble: [st.text] or [st.markdown]. *)
Inductive Widget : Type :=
  | StText (body : string)
  | StMarkdown (body : string).

(** [with st.chat_message(role): widget] *)
Record Bubble : Type := {
  bubble_role : Role;
  bubble_widget : Widget
}.

(** The [for msg in st.session_state.messages] loop: a tool entry is shown
    as text after a fixed prefix, an assistant entry only when its content
    is non-empty, a user entry always. *)
Fixpoint render (transcript : list Message) : list Bubble :=
  match transcript with
  | [] => []
  | ToolMessage _ content :: rest =>
      {| bubble_role := tool; bubble_widget := StText ("Tool Output: " +:+ content) |}
      :: render rest
  | AssistantMessage content :: rest =>
      if truthy_str content
      then {| bubble_role := assistant;
              bubble_widget := StMarkdown (default EmptyString content) |}
           :: render rest
      else render rest
  | UserMessage content :: rest =>
      {| bubble_role := user; bubble_widget := StMarkdown content |} :: render rest
  end.

End Display.

(** ** Further notions for the turn *)
Module TurnModel.
Import Client TurnSpec.

(** [s.find(old)]: the position of the first occurrence, if any. *)
Fixpoint find (old s : string) : option nat :=
  match s with
  | EmptyString => if startswith old EmptyString then Some O else None
  | String _ rest => if startswith old s then Some O else S <$> find old rest
  end.

(** The exception that ends the session before the model's first reply is
    read, if any: raised by a stage of the session, or by [choices[0]] on a
    reply without choices. *)
Definition first_failure (w : World) (cfg : Config) (transcript : list Message)
  : option exn :=
  match sse_client w (SERVER_URL cfg) with
  | Raise e => Some e
  | Return _ =>
  match client_session w with
  | Raise e => Some e
  | Return _ =>
  match session_initialize w with
  | Raise e => Some e
  | Return _ =>
  match session_list_tools w with
  | Raise e => Some e
  | Return tools =>
  match chat_completions_create w (first_request tools transcript) with
  | Raise e => Some e
  | Return response =>
  match choices response with
  | [] => Some (PyException "list index out of range")
  | _ :: _ => None
  end end end end end end.

Definition is_call_tool (ev : Event) : bool :=
  match ev with EvCallTool _ _ => true | _ => false end.

Definition is_st_error (ev : Event) : bool :=
  match ev with EvStError _ => true | _ => false end.

(** The text of one content block of a tool result. *)
Definition block_text (b : ContentBlock) : string :=
  match b with TextContent text => text | OtherContent str => str end.

(** The text of the content blocks, each followed by a newline. *)
Definition lines_text (blocks : list ContentBlock) : string :=
  foldr (λ b s, block_text b +:+ newline +:+ s) EmptyString blocks.

(** How a turn with tool calls closes, given the transcript [final_msgs]
    sent to the second model call: the content of the closing assistant
    message and the effects after that call. *)
Definition closing (w : World) (final_msgs : list Message)
  : option string * list Event :=
  match chat_completions_create w (final_request final_msgs) with
  | Return response =>
      match choices response with
      | final :: _ => (msg_content final, [])
      | [] =>
          (Some ("[agent error] " +:+ "list index out of range"),
           [EvStError ("Connection / agent runtime error: " +:+ "list index out of range")])
      end
  | Raise e =>
      (Some ("[agent error] " +:+ str_exn e),
       [EvStError ("Connection / agent runtime error: " +:+ str_exn e)])
  end.

(** The transcript after the tool loop of a turn. *)
Definition after_tools (w : World) (st : State) (u : string) (msg : ChatMessage)
  : list Message :=
  messages st ++ [UserMessage u; AssistantMessage (msg_content msg)] ++
  tool_replies w 0 (requested_calls msg).

End TurnModel.

(** ** Further sample inputs *)
Module MoreSamples.
Import Server Client.

Definition first_day : ForecastItem :=
  Samples.entry "2024-01-01 21:00:00" "light rain" "1.5".

Definition second_day : ForecastItem :=
  Samples.entry "2024-01-02 00:00:00" "clear sky" "3".

(** An entry without [dt_txt]. *)
Definition unstamped : ForecastItem :=
  {| dt_txt := None;
     weather := Some [ {| description := Some "mist" |} ];
     main := Some {| temp := Some "2"; humidity := Some "90" |} |}.

Definition two_then_unstamped : Provider ForecastData :=
  λ _, Return {| list_ := Some [first_day; second_day; unstamped] |}.

Definition without_list : Provider ForecastData :=
  λ _, Return {| list_ := None |}.

Definition forecast_city_not_found : Provider ForecastData :=
  λ _, Raise (HTTPStatusError "city not found" "Client error 404 Not Found").

Definition forecast_unreachable : Provider ForecastData :=
  λ _, Raise (PyException "All connection attempts failed").

Definition misty : Provider CurrentData :=
  λ _, Return {| cur_weather := Some [ {| description := Some "mist" |} ];
                 cur_main := Some {| temp := Some "2"; humidity := Some "90" |} |}.

(** A world whose backend answers the probe and refuses the session. *)
Definition refusing_world : World :=
  {| httpx_get := λ _, Return 200;
     sse_client := λ _, Raise (PyException "connection refused");
     client_session := Return tt;
     session_initialize := Return tt;
     session_list_tools := Return [];
     chat_completions_create := λ _, Return {| choices := [] |};
     session_call_tool := λ _ _ _, Return (WithContent []);
     json_loads := Scenarios.loads |}.

End MoreSamples.

(** ** Properties of the tool backend *)
Module ServerProps.
Import Server ForecastSpec.

Lemma obind_return {A B} (c : outcome A) (k : A → outcome B) b :
  (c ≫= k) = Return b → ∃ a, c = Return a ∧ k a = Return b.
Proof. destruct c as [a|e]; [eauto | discriminate]. Qed.

Lemma getitem_return {A} key (field : option A) v :
  getitem key field = Return v → field = Some v.
Proof. destruct field; simpl; congruence. Qed.

Lemma getitem0_return {A} (l : list A) v :
  getitem0 l = Return v → head l = Some v.
Proof. destruct l; simpl; congruence. Qed.

Lemma date_at_app_l pre items j :
  (j < length pre)%nat → date_at (pre ++ items) j = date_at pre j.
Proof. intros Hj. unfold date_at. by rewrite lookup_app_l. Qed.

Lemma date_at_middle pre item rest :
  date_at (pre ++ item :: rest) (length pre) = date_of item.
Proof. unfold date_at. by rewrite list_lookup_middle. Qed.

Lemma seen_is_snoc seen pre item d :
  seen_is seen pre → date_of item = Some d →
  seen_is (seen ∪ {[d]}) (pre ++ [item]).
Proof.
  intros Hseen Hd d'. rewrite elem_of_union, elem_of_singleton, length_app. simpl.
  split.
  - intros [Hin | ->].
    + apply Hseen in Hin as (j & Hj & Hdj). exists j. split; [lia|].
      by rewrite date_at_app_l.
    + exists (length pre). split; [lia|]. by rewrite date_at_middle.
  - intros (j & Hj & Hdj). destruct (decide (j < length pre)%nat) as [Hlt|Hge].
    + left. apply Hseen. exists j. split; [done|]. by rewrite date_at_app_l in Hdj.
    + assert (j = length pre) as -> by lia. rewrite date_at_middle in Hdj.
      right. congruence.
Qed.

Lemma seen_is_snoc_known seen pre item d :
  seen_is seen pre → date_of item = Some d → d ∈ seen →
  seen_is seen (pre ++ [item]).
Proof.
  intros Hseen Hd Hin d'. split.
  - intros (j & Hj & Hdj)%Hseen. exists j. rewrite length_app. split; [lia|].
    by rewrite date_at_app_l.
  - intros (j & Hj & Hdj). rewrite length_app in Hj. simpl in Hj.
    destruct (decide (j < length pre)%nat) as [Hlt|Hge].
    + apply Hseen. exists j. split; [done|]. by rewrite date_at_app_l in Hdj.
    + assert (j = length pre) as -> by lia. rewrite date_at_middle in Hdj.
      congruence.
Qed.

Lemma forecast_loop_picks days items : ∀ pre forecasts seen out,
  seen_is seen pre →
  forecast_loop days items forecasts seen = Return out →
  ∃ idx new, out = forecasts ++ new ∧
    Forall2 (picks (pre ++ items)) idx new ∧
    StronglySorted lt idx ∧
    Forall (λ i, length pre ≤ i)%nat idx ∧
    Z.of_nat (length new) ≤ Z.max 1 (days - Z.of_nat (length forecasts)).
Proof.
  induction items as [|item rest IH]; intros pre forecasts seen out Hseen Hrun.
  - simpl in Hrun. injection Hrun as <-. exists [], []. rewrite app_nil_r.
    split_and!; try constructor. simpl. lia.
  - simpl in Hrun.
    apply obind_return in Hrun as (stamp & Hstamp%getitem_return & Hrun).
    assert (date_of item = Some (split_space_0 stamp)) as Hdate.
    { unfold date_of. by rewrite Hstamp. }
    set (date := split_space_0 stamp) in *.
    destruct (decide (date ∈ seen)) as [Hin|Hnin].
    + apply (IH (pre ++ [item])) in Hrun as (idx & new & -> & Hpicks & Hsorted & Hge & Hlen);
        [|by eapply seen_is_snoc_known].
      rewrite <- app_assoc in Hpicks. simpl in Hpicks.
      exists idx, new. split_and!; try done.
      eapply Forall_impl; [exact Hge|]. intros i. rewrite length_app. simpl. lia.
    + apply obind_return in Hrun as (w & Hw%getitem_return & Hrun).
      apply obind_return in Hrun as (w0 & Hw0%getitem0_return & Hrun).
      apply obind_return in Hrun as (desc & Hdesc%getitem_return & Hrun).
      apply obind_return in Hrun as (m & Hm%getitem_return & Hrun).
      apply obind_return in Hrun as (t & Ht%getitem_return & Hrun).
      set (line := date +:+ ": " +:+ desc +:+ ", " +:+ t +:+ degree +:+ "C") in *.
      assert (picks (pre ++ item :: rest) (length pre) line) as Hpick.
      { exists item. split; [by rewrite list_lookup_middle|]. split.
        - unfold line_of. rewrite Hstamp, Hw. simpl. rewrite Hw0. simpl.
          rewrite Hdesc, Hm. simpl. by rewrite Ht.
        - intros j Hj. rewrite date_at_middle, date_at_app_l, Hdate by done.
          intros Heq. apply Hnin, Hseen. eauto. }
      destruct (Z.of_nat (length (forecasts ++ [line])) >=? days) eqn:Hstop.
      * injection Hrun as <-. exists [length pre], [line].
        split_and!; [done | by repeat constructor | repeat constructor
                    | by repeat constructor | simpl; lia].
      * apply (IH (pre ++ [item])) in Hrun as (idx & new & -> & Hpicks & Hsorted & Hge & Hlen);
          [|by eapply seen_is_snoc].
        rewrite <- app_assoc in Hpicks. simpl in Hpicks.
        rewrite length_app in Hge, Hlen, Hstop. simpl in Hge, Hlen, Hstop.
        exists (length pre :: idx), (line :: new). split_and!.
        -- by rewrite <- app_assoc.
        -- by constructor.
        -- constructor; [done|]. eapply Forall_impl; [exact Hge|]. simpl. lia.
        -- constructor; [done|]. eapply Forall_impl; [exact Hge|]. simpl. lia.
        -- rewrite Z.geb_leb in Hstop. apply Z.leb_gt in Hstop.
           simpl length. lia.
Qed.

Lemma picks_distinct_dates items idx lines :
  Forall2 (picks items) idx lines → StronglySorted lt idx →
  StronglySorted (later_other_date items) idx.
Proof.
  intros Hpicks. induction Hpicks as [|i line idx lines Hi Hrest IH]; intros Hsorted.
  - constructor.
  - apply StronglySorted_inv in Hsorted as [Hsorted Hlt]. constructor; [by apply IH|].
    apply Forall_forall. intros i' Hin. split.
    + by eapply Forall_forall in Hlt.
    + apply (Forall2_Forall_l _ (λ i', ∀ j, (j < i')%nat → date_at items j ≠ date_at items i')) in Hrest.
      * eapply Forall_forall in Hrest; [|exact Hin]. apply Hrest.
        by eapply Forall_forall in Hlt.
      * apply Forall_forall. intros line' _ k (item & _ & _ & Hfirst). exact Hfirst.
Qed.

Lemma seen_is_empty : seen_is ∅ [].
Proof. intros d. split; [set_solver|]. intros (j & Hj & _). simpl in Hj. lia. Qed.

Lemma forecast_try_fetch cfg http city days :
  forecast_try cfg http city days =
    let '(fetched, sent) := _get_weather_data cfg http "forecast" [("q", city)] in
    (data ← fetched;
     forecasts ← forecast_loop (Z.min days 5) (default [] (list_ data)) [] ∅;
     Return (header city +:+ join newline forecasts), sent).
Proof.
  unfold forecast_try. replace (if days >? 5 then 5 else days) with (Z.min days 5); [done|].
  destruct (days >? 5) eqn:H; [apply Z.gtb_lt in H | rewrite Z.gtb_ltb in H; apply Z.ltb_ge in H]; lia.
Qed.

Lemma get_weather_data_return {D} cfg (http : Provider D) endpoint ps data :
  (_get_weather_data cfg http endpoint ps).1 = Return data →
  ∃ key, OPENWEATHER_API_KEY cfg = Some key ∧ key ≠ EmptyString ∧
    http {| url := OPENWEATHER_BASE_URL cfg +:+ "/" +:+ endpoint;
            params := ps ++ [("appid", key); ("units", "metric")] |} = Return data.
Proof.
  unfold _get_weather_data. destruct (OPENWEATHER_API_KEY cfg) as [[|a k]|]; simpl; try discriminate.
  intros H. by exists (String a k).
Qed.

(** X1. Whenever [get_forecast] prints forecast lines, they are the lines of
    entries of the provider's list taken in provider order, one per date,
    each the first entry of its date, and at most [max 1 (min days 5)] of
    them. *)
Theorem forecast_try_selection cfg http city days text :
  (forecast_try cfg http city days).1 = Return text →
  ∃ key data idx forecasts,
    OPENWEATHER_API_KEY cfg = Some key ∧
    http (forecast_request cfg key city) = Return data ∧
    (get_forecast cfg http city days).1 = Return (header city +:+ join newline forecasts) ∧
    Forall2 (picks (default [] (list_ data))) idx forecasts ∧
    StronglySorted (later_other_date (default [] (list_ data))) idx ∧
    Z.of_nat (length forecasts) ≤ Z.max 1 (Z.min days 5).
Proof.
  intros Htry. unfold get_forecast. rewrite forecast_try_fetch in Htry |- *.
  destruct (_get_weather_data cfg http "forecast" [("q", city)]) as [fetched sent] eqn:Hfetch.
  simpl in Htry |- *.
  apply obind_return in Htry as (data & -> & Htry).
  apply obind_return in Htry as (forecasts & Hloop & [= <-]).
  pose proof (get_weather_data_return cfg http "forecast" [("q", city)] data) as Hget.
  rewrite Hfetch in Hget. destruct (Hget eq_refl) as (key & Hkey & _ & Hhttp).
  apply (forecast_loop_picks _ _ []) in Hloop as Hsel; [|apply seen_is_empty].
  destruct Hsel as (idx & new & -> & Hpicks & Hsorted & _ & Hlen). simpl in *.
  exists key, data, idx, new. split_and!; try done.
  - simpl. by rewrite Hloop.
  - by eapply picks_distinct_dates.
  - lia.
Qed.

(** Forty days are cut to five; the second entry of 2 January is skipped. *)
Example get_forecast_forty_days :
  (get_forecast Samples.weather_cfg Samples.six_days "Oslo" 40).1
    = Return (header "Oslo" +:+
              join newline
                ["2024-01-01: light rain, 1.5" +:+ degree +:+ "C";
                 "2024-01-02: clear sky, 3" +:+ degree +:+ "C";
                 "2024-01-03: snow, 0" +:+ degree +:+ "C";
                 "2024-01-04: snow, -1" +:+ degree +:+ "C";
                 "2024-01-05: clear sky, 4" +:+ degree +:+ "C"]).
Proof. reflexivity. Qed.

(** With a day count of zero or less the loop still prints the first
    entry: the stop test follows the append. *)
Lemma get_forecast_nonpositive_days cfg http city days key item rest line :
  days ≤ 0 →
  OPENWEATHER_API_KEY cfg = Some key → key ≠ EmptyString →
  http (forecast_request cfg key city) = Return {| list_ := Some (item :: rest) |} →
  line_of item = Some line →
  (get_forecast cfg http city days).1 = Return (header city +:+ line).
Proof.
  intros Hdays Hkey Hne Hhttp Hline. unfold get_forecast. rewrite forecast_try_fetch.
  unfold _get_weather_data. rewrite Hkey. destruct key as [|a k]; [done|].
  unfold forecast_request in Hhttp. simpl in *. rewrite Hhttp. simpl.
  unfold line_of in Hline.
  destruct (dt_txt item) as [stamp|]; [|done]. simpl in *.
  destruct (weather item) as [[|w0 ws]|]; try done. simpl in *.
  destruct (description w0) as [desc|]; [|done]. simpl in *.
  destruct (main item) as [m|]; [|done]. simpl in *.
  destruct (temp m) as [t|]; [|done]. simpl in *.
  injection Hline as <-.
  rewrite decide_False by set_solver.
  replace (Z.of_nat 1 >=? Z.min days 5) with true; [done|].
  symmetry. rewrite Z.geb_leb. apply Z.leb_le. lia.
Qed.

(** C1 (divergence). For [days = 0] and a provider list with two dates,
    [get_forecast] prints one date, more than [min(0, 5) = 0]. *)
Theorem get_forecast_zero_days_prints_a_date :
  (get_forecast Samples.weather_cfg Samples.two_days "Paris" 0).1
    = Return (header "Paris" +:+
              join newline ["2024-01-01: light rain, 1.5" +:+ degree +:+ "C"]) ∧
  ¬ (Z.of_nat (length ["2024-01-01: light rain, 1.5" +:+ degree +:+ "C"]) ≤ Z.min 0 5).
Proof. split; [reflexivity | simpl; lia]. Qed.

(** C2 (divergence). [get_forecast(city, -1)] on a provider list of one
    entry returns the header followed by one forecast line, not the header
    alone. *)
Theorem get_forecast_negative_days_one_line :
  (get_forecast Samples.weather_cfg Samples.one_entry "Paris" (-1)).1
    = Return (header "Paris" +:+ "2024-01-01: light rain, 1.5" +:+ degree +:+ "C") ∧
  (get_forecast Samples.weather_cfg Samples.one_entry "Paris" (-1)).1
    ≠ Return (header "Paris" +:+ join newline []).
Proof. split; [reflexivity | discriminate]. Qed.

(** C10. For [days >= 5], [get_forecast(city, days)] returns what
    [get_forecast(city, 5)] returns, whatever the provider does. *)
Theorem get_forecast_clamped cfg http city days :
  5 ≤ days →
  get_forecast cfg http city days = get_forecast cfg http city 5.
Proof.
  intros Hdays. unfold get_forecast. rewrite !forecast_try_fetch.
  by replace (Z.min days 5) with (Z.min 5 5) by lia.
Qed.

Lemma get_forecast_clamped_witness :
  5 ≤ 40 ∧
  get_forecast Samples.weather_cfg Samples.six_days "Oslo" 40
    = get_forecast Samples.weather_cfg Samples.six_days "Oslo" 5.
Proof. split; [lia | apply get_forecast_clamped; lia]. Defined.

Lemma summarise_current_raise city data e :
  summarise_current city data = Raise e → ∃ m, e = PyException m.
Proof.
  unfold summarise_current.
  destruct (cur_weather data) as [[|w0 ws]|]; simpl; [| |]; try (intros [= <-]; eauto; fail).
  destruct (description w0); simpl; try (intros [= <-]; eauto; fail).
  destruct (cur_main data) as [m|]; simpl; try (intros [= <-]; eauto; fail).
  destruct (temp m); simpl; try (intros [= <-]; eauto; fail).
  destruct (humidity m); simpl; intros [= <-]; eauto.
Qed.

Lemma handle_total what body : ∃ s, handle what body = Return s.
Proof. destruct body as [s|[text m|m]]; simpl; eauto. Qed.

(** C3. [get_current_weather] always returns a text and never raises; on a
    provider HTTP error the text embeds the body of the error response, and
    on any other failure (of the request, or of reading the reply) it embeds
    the message of the exception. *)
Theorem get_current_weather_never_raises cfg http city :
  (∃ s, (get_current_weather cfg http city).1 = Return s) ∧
  (∀ key text m,
     OPENWEATHER_API_KEY cfg = Some key → key ≠ EmptyString →
     http (weather_request cfg key city) = Raise (HTTPStatusError text m) →
     (get_current_weather cfg http city).1
       = Return ("Error fetching weather: " +:+ text)) ∧
  (∀ key m,
     OPENWEATHER_API_KEY cfg = Some key → key ≠ EmptyString →
     http (weather_request cfg key city) = Raise (PyException m) →
     (get_current_weather cfg http city).1
       = Return ("An error occurred: " +:+ m)) ∧
  (∀ key data e,
     OPENWEATHER_API_KEY cfg = Some key → key ≠ EmptyString →
     http (weather_request cfg key city) = Return data →
     summarise_current city data = Raise e →
     (get_current_weather cfg http city).1
       = Return ("An error occurred: " +:+ str_exn e)).
Proof.
  unfold get_current_weather, current_weather_try, _get_weather_data, weather_request.
  split_and!.
  - destruct (OPENWEATHER_API_KEY cfg) as [[|a k]|]; simpl; eauto using handle_total.
  - intros [|a k] text m -> Hne Hhttp; [done|]. simpl in *. by rewrite Hhttp.
  - intros [|a k] m -> Hne Hhttp; [done|]. simpl in *. by rewrite Hhttp.
  - intros [|a k] data e -> Hne Hhttp Hsum; [done|]. simpl in *. rewrite Hhttp. simpl.
    rewrite Hsum. by destruct (summarise_current_raise _ _ _ Hsum) as [m ->].
Qed.

Lemma get_current_weather_never_raises_witness :
  (get_current_weather Samples.weather_cfg Samples.city_not_found "Paris").1
    = Return "Error fetching weather: city not found" ∧
  (get_current_weather Samples.weather_cfg Samples.unreachable "Paris").1
    = Return "An error occurred: All connection attempts failed" ∧
  (get_current_weather Samples.weather_cfg Samples.no_main "Paris").1
    = Return "An error occurred: 'main'".
Proof.
  split_and!.
  - apply (proj1 (proj2 (get_current_weather_never_raises
             Samples.weather_cfg Samples.city_not_found "Paris"))
             "k" "city not found" "Client error 404 Not Found"); done.
  - apply (proj1 (proj2 (proj2 (get_current_weather_never_raises
             Samples.weather_cfg Samples.unreachable "Paris")))
             "k" "All connection attempts failed"); done.
  - apply (proj2 (proj2 (proj2 (get_current_weather_never_raises
             Samples.weather_cfg Samples.no_main "Paris")))
             "k" Samples.mist_without_main (PyException "'main'")); done.
Defined.

End ServerProps.

(** ** Properties of the agent client *)
Module ClientProps.
Import Client TurnSpec.

(** [replace] rewrites every occurrence of the mount segment, also one in
    the host name. *)
Example health_url_local :
  health_url Scenarios.backend_cfg = "http://localhost:5000/health".
Proof. reflexivity. Qed.

Example health_url_default :
  health_url {| SERVER_URL := "https://mcp-app.onrender.com/mcp";
                OPENROUTER_API_KEY := None |}
    = "https://health-app.onrender.com/health".
Proof. reflexivity. Qed.

Lemma run_tool_calls_spec w calls : ∀ i st,
  run_tool_calls w i calls st =
    (Return tt, {| messages := messages st ++ tool_replies w i calls;
                   trace := trace st ++ (invocation w <$> calls) |}).
Proof.
  induction calls as [|tc rest IH]; intros i [msgs tr].
  - simpl. unfold ret. by rewrite !app_nil_r.
  - simpl. unfold mbind, M_bind, bind, try_except, external, append_message, mret, M_ret, ret.
    simpl. unfold tool_reply, invocation.
    destruct (session_call_tool w i (call_name tc) (parse_arguments w tc)) as [r|te];
      simpl; rewrite IH; simpl; by rewrite <- !app_assoc.
Qed.

Lemma probe_failed_messages w cfg u st :
  probe_failed (httpx_get w (health_url cfg)) →
  messages (run_agent_turn w cfg u st).2 = messages st ++ [UserMessage u].
Proof.
  intros Hfailed. unfold run_agent_turn.
  unfold mbind, M_bind, bind, try_except, external, append_message, mret, M_ret, ret,
    st_error, emit.
  simpl. destruct (httpx_get w (health_url cfg)) as [status|e]; simpl in *; [|done].
  by rewrite decide_False.
Qed.

#[local] Arguments run_tool_calls : simpl never.

Ltac run_m :=
  unfold mbind, M_bind, bind, try_except, external, append_message, get_messages,
    call_llm_in_thread, first_choice, mret, M_ret, ret, st_error, emit; simpl.

Lemma turn_tool_calls w cfg u st tools msg :
  reaches_reply w cfg (messages st ++ [UserMessage u]) tools msg →
  requested_calls msg ≠ [] →
  ∃ last events,
    run_agent_turn w cfg u st =
      (Return tt,
       {| messages := messages st ++
            [UserMessage u; AssistantMessage (msg_content msg)] ++
            tool_replies w 0 (requested_calls msg) ++ [AssistantMessage last];
          trace := trace st ++
            prelude cfg (first_request tools (messages st ++ [UserMessage u])) ++
            (invocation w <$> requested_calls msg) ++ events |}).
Proof.
  intros [Hprobe Hsse Hsession Hinit Htools (response & rest & Hchat & Hchoices)] Hcalls.
  unfold run_agent_turn, session_body. run_m.
  rewrite Hprobe. simpl. rewrite Hsse, Hsession, Hinit, Htools. simpl.
  rewrite Hchat. simpl. rewrite Hchoices. simpl.
  destruct (requested_calls msg) as [|tc calls] eqn:Hreq; [done|].
  run_m. rewrite run_tool_calls_spec. simpl.
  match goal with |- context [chat_completions_create w ?r] =>
    destruct (chat_completions_create w r) as [[[|final others]]|e] eqn:Hfinal end; simpl.
  - eexists _, [_; _]. rewrite <- !app_assoc. simpl. reflexivity.
  - eexists _, [_]. rewrite <- !app_assoc. simpl. reflexivity.
  - eexists _, [_; _]. rewrite <- !app_assoc. simpl. reflexivity.
Qed.

Lemma filter_tool_replies w calls : ∀ i,
  filter is_tool (tool_replies w i calls) = tool_replies w i calls.
Proof.
  induction calls as [|tc rest IH]; intros i; [done|].
  simpl. rewrite filter_cons_True by done. by rewrite IH.
Qed.

Lemma length_tool_replies w calls : ∀ i,
  length (tool_replies w i calls) = length calls.
Proof. induction calls as [|tc rest IH]; intros i; [done|]. simpl. by rewrite IH. Qed.

Lemma tool_replies_ids w calls : ∀ i,
  (tool_call_id_of <$> tool_replies w i calls) = (call_id <$> calls).
Proof. induction calls as [|tc rest IH]; intros i; [done|]. simpl. by rewrite IH. Qed.

Lemma turn_cases w cfg u st :
  (∃ tools msg, reaches_reply w cfg (messages st ++ [UserMessage u]) tools msg ∧
     requested_calls msg ≠ []) ∨
  (∃ tail, messages (run_agent_turn w cfg u st).2 = messages st ++ UserMessage u :: tail ∧
     filter is_tool tail = []).
Proof.
  destruct (httpx_get w (health_url cfg)) as [status|e] eqn:Hprobe.
  2: { right. exists []. split; [|done]. apply probe_failed_messages. by rewrite Hprobe. }
  destruct (decide (status = 200)) as [->|Hstatus].
  2: { right. exists []. split; [|done]. apply probe_failed_messages. by rewrite Hprobe. }
  assert (∀ tail,
    (session_body w cfg {| messages := messages st ++ [UserMessage u];
                           trace := trace st ++ [EvHttpGet (health_url cfg)] |}).1 = Return tt ∧
    messages (session_body w cfg {| messages := messages st ++ [UserMessage u];
                           trace := trace st ++ [EvHttpGet (health_url cfg)] |}).2
      = (messages st ++ [UserMessage u]) ++ tail
    ∨ (∃ e, (session_body w cfg {| messages := messages st ++ [UserMessage u];
                           trace := trace st ++ [EvHttpGet (health_url cfg)] |}).1 = Raise e ∧
        messages (session_body w cfg {| messages := messages st ++ [UserMessage u];
                           trace := trace st ++ [EvHttpGet (health_url cfg)] |}).2
       ++ [AssistantMessage (Some ("[agent error] " +:+ str_exn e))]
      = (messages st ++ [UserMessage u]) ++ tail) →
    messages (run_agent_turn w cfg u st).2 = messages st ++ UserMessage u :: tail) as Hturn.
  { intros tail. unfold run_agent_turn. run_m. rewrite Hprobe. simpl.
    destruct (session_body w cfg _) as [[[]|e] st']; simpl.
    - intros [[_ ->] | (e & [=] & _)]. by rewrite <- app_assoc.
    - intros [[[=] _] | (e' & [= <-] & ->)]. by rewrite <- app_assoc. }
  unfold session_body in Hturn. revert Hturn. run_m.
  destruct (sse_client w (SERVER_URL cfg)) as [[]|e] eqn:Hsse; simpl.
  2: { intros Hturn. right. eexists [_]. split; [apply Hturn; right; eauto | done]. }
  destruct (client_session w) as [[]|e] eqn:Hsession; simpl.
  2: { intros Hturn. right. eexists [_]. split; [apply Hturn; right; eauto | done]. }
  destruct (session_initialize w) as [[]|e] eqn:Hinit; simpl.
  2: { intros Hturn. right. eexists [_]. split; [apply Hturn; right; eauto | done]. }
  destruct (session_list_tools w) as [tools|e] eqn:Htools; simpl.
  2: { intros Hturn. right. eexists [_]. split; [apply Hturn; right; eauto | done]. }
  destruct (chat_completions_create w (first_request tools (messages st ++ [UserMessage u])))
    as [[[|msg rest]]|e] eqn:Hchat; simpl.
  1, 3: intros Hturn; right; eexists [_]; (split; [apply Hturn; right; eauto | done]).
  destruct (requested_calls msg) as [|tc calls] eqn:Hcalls.
  - intros Hturn. right. eexists [_]. split; [apply Hturn; left; eauto | done].
  - intros _. left. exists tools, msg. split; [|by rewrite Hcalls].
    split; eauto.
Qed.

(** C5. When the health probe answers with a status other than 200 (in
    particular any non-success status such as 500) or raises, the turn ends
    after reporting the failure: its only effects are the probe and the
    error shown to the user, so no session is opened, and the transcript
    gains the user message alone. *)
Theorem health_check_failure_aborts w cfg u st :
  probe_failed (httpx_get w (health_url cfg)) →
  run_agent_turn w cfg u st =
    (Return tt,
     {| messages := messages st ++ [UserMessage u];
        trace := trace st ++
          [EvHttpGet (health_url cfg);
           EvStError (probe_failure_text (httpx_get w (health_url cfg)))] |}).
Proof.
  intros Hfailed. unfold run_agent_turn. run_m.
  destruct (httpx_get w (health_url cfg)) as [status|e]; simpl in *.
  - rewrite decide_False by done. simpl. by rewrite <- app_assoc.
  - by rewrite <- app_assoc.
Qed.

Lemma health_check_failure_aborts_witness :
  run_agent_turn (Scenarios.world (Return 500) Scenarios.says_hello)
    Scenarios.backend_cfg "Weather in Paris?" Scenarios.fresh =
    (Return tt,
     {| messages := [UserMessage "Weather in Paris?"];
        trace := [EvHttpGet "http://localhost:5000/health";
                  EvStError "Backend health check failed: 500"] |}).
Proof.
  apply (health_check_failure_aborts (Scenarios.world (Return 500) Scenarios.says_hello)
           Scenarios.backend_cfg "Weather in Paris?" Scenarios.fresh).
  simpl. lia.
Defined.

(** C8. When the probe succeeds, the session opens and the model's first
    reply requests no tool call, the turn extends the transcript by the user
    message and one assistant message holding the content the model
    returned, and the model is called once. *)
Theorem plain_reply_round_trip w cfg u st tools msg :
  reaches_reply w cfg (messages st ++ [UserMessage u]) tools msg →
  requested_calls msg = [] →
  run_agent_turn w cfg u st =
    (Return tt,
     {| messages := messages st ++ [UserMessage u; AssistantMessage (msg_content msg)];
        trace := trace st ++
          [EvHttpGet (health_url cfg); EvSseClient (SERVER_URL cfg); EvClientSession;
           EvInitialize; EvListTools;
           EvChatCreate (first_request tools (messages st ++ [UserMessage u]))] |}).
Proof.
  intros [Hprobe Hsse Hsession Hinit Htools (response & rest & Hchat & Hchoices)] Hcalls.
  unfold run_agent_turn, session_body. run_m.
  rewrite Hprobe. simpl. rewrite Hsse, Hsession, Hinit, Htools. simpl.
  rewrite Hchat. simpl. rewrite Hchoices. simpl. rewrite Hcalls. simpl.
  by rewrite <- !app_assoc.
Qed.

Lemma reaches_reply_scenario reply u :
  reaches_reply (Scenarios.world (Return 200) reply) Scenarios.backend_cfg
    [UserMessage u] [Scenarios.weather_tool] reply.
Proof. split; try reflexivity. eexists _, []. split; reflexivity. Defined.

Lemma plain_reply_round_trip_witness :
  run_agent_turn (Scenarios.world (Return 200) Scenarios.says_hello)
    Scenarios.backend_cfg "Hi" Scenarios.fresh =
    (Return tt,
     {| messages := [UserMessage "Hi";
                     AssistantMessage (Some "Hello, ask me about the weather.")];
        trace := [EvHttpGet "http://localhost:5000/health";
                  EvSseClient "http://localhost:5000/mcp"; EvClientSession;
                  EvInitialize; EvListTools;
                  EvChatCreate (first_request [Scenarios.weather_tool] [UserMessage "Hi"])] |}).
Proof.
  apply (plain_reply_round_trip (Scenarios.world (Return 200) Scenarios.says_hello)
           Scenarios.backend_cfg "Hi" Scenarios.fresh [Scenarios.weather_tool]
           Scenarios.says_hello).
  - apply reaches_reply_scenario.
  - reflexivity.
Defined.

(** C4. When the model's reply requests exactly two tool calls, the turn
    appends exactly two tool messages, after the assistant message and in
    the order of the requests; each holds the formatted result of its call,
    or the failure text when its invocation raised, so a first invocation
    that raises does not keep the second call from being made and
    answered. *)
Theorem two_tool_calls_two_tool_messages w cfg u st tools msg tc1 tc2 :
  reaches_reply w cfg (messages st ++ [UserMessage u]) tools msg →
  requested_calls msg = [tc1; tc2] →
  ∃ c1 c2 last,
    messages (run_agent_turn w cfg u st).2 =
      messages st ++
        [UserMessage u; AssistantMessage (msg_content msg);
         ToolMessage (call_id tc1) c1; ToolMessage (call_id tc2) c2;
         AssistantMessage last] ∧
    answers w 0 tc1 c1 ∧ answers w 1 tc2 c2.
Proof.
  intros Hreach Hcalls.
  destruct (turn_tool_calls w cfg u st tools msg Hreach) as (last & events & ->);
    [by rewrite Hcalls|].
  rewrite Hcalls. simpl. unfold tool_reply, answers. eexists _, _, last.
  split_and!; [done| |].
  - by destruct (session_call_tool w 0 _ _).
  - by destruct (session_call_tool w 1 _ _).
Qed.

Lemma two_tool_calls_two_tool_messages_witness :
  ∃ last,
    messages (run_agent_turn (Scenarios.world (Return 200) Scenarios.asks_two)
                Scenarios.backend_cfg "Weather in Paris?" Scenarios.fresh).2 =
      [UserMessage "Weather in Paris?"; AssistantMessage None;
       ToolMessage (Some "call_1") "Tool get_current_weather call failed: timed out";
       ToolMessage (Some "call_2") ("Forecast for Paris:" +:+ newline);
       AssistantMessage last].
Proof.
  destruct (two_tool_calls_two_tool_messages
              (Scenarios.world (Return 200) Scenarios.asks_two) Scenarios.backend_cfg
              "Weather in Paris?" Scenarios.fresh [Scenarios.weather_tool]
              Scenarios.asks_two Scenarios.first_call Scenarios.second_call
              (reaches_reply_scenario _ _) eq_refl)
    as (c1 & c2 & last & Hmsgs & Hfirst & Hsecond).
  exists last. rewrite Hmsgs. unfold answers in Hfirst, Hsecond. simpl in Hfirst, Hsecond.
  by rewrite Hfirst, Hsecond.
Defined.

Lemma reaches_reply_unique w cfg transcript tools msg tools' msg' :
  reaches_reply w cfg transcript tools msg →
  reaches_reply w cfg transcript tools' msg' →
  tools' = tools ∧ msg' = msg.
Proof.
  intros [_ _ _ _ Htools (response & rest & Hchat & Hchoices)]
         [_ _ _ _ Htools' (response' & rest' & Hchat' & Hchoices')].
  rewrite Htools in Htools'. injection Htools' as <-.
  rewrite Hchat in Hchat'. injection Hchat' as <-.
  rewrite Hchoices in Hchoices'. by injection Hchoices' as <- _.
Qed.

Lemma reaches_reply_or_not w cfg transcript :
  (∃ tools msg, reaches_reply w cfg transcript tools msg) ∨
  (∀ tools msg, ¬ reaches_reply w cfg transcript tools msg).
Proof.
  destruct (httpx_get w (health_url cfg)) as [status|e] eqn:Hprobe.
  2: { right. intros tools msg [H _ _ _ _ _]. congruence. }
  destruct (decide (status = 200)) as [->|Hstatus].
  2: { right. intros tools msg [H _ _ _ _ _]. congruence. }
  destruct (sse_client w (SERVER_URL cfg)) as [[]|e] eqn:Hsse.
  2: { right. intros tools msg [_ H _ _ _ _]. congruence. }
  destruct (client_session w) as [[]|e] eqn:Hsession.
  2: { right. intros tools msg [_ _ H _ _ _]. congruence. }
  destruct (session_initialize w) as [[]|e] eqn:Hinit.
  2: { right. intros tools msg [_ _ _ H _ _]. congruence. }
  destruct (session_list_tools w) as [tools|e] eqn:Htools.
  2: { right. intros tools msg [_ _ _ _ H _]. congruence. }
  destruct (chat_completions_create w (first_request tools transcript))
    as [[[|msg rest]]|e] eqn:Hchat.
  - right. intros tools' msg' [_ _ _ _ H (response & rest & Hchat' & Hchoices)].
    rewrite Htools in H. injection H as <-. rewrite Hchat in Hchat'.
    injection Hchat' as <-. discriminate.
  - left. exists tools, msg. split; eauto.
  - right. intros tools' msg' [_ _ _ _ H (response & rest & Hchat' & _)].
    rewrite Htools in H. injection H as <-. congruence.
Qed.

Lemma issued_unique w cfg transcript calls calls' :
  issued w cfg transcript calls → issued w cfg transcript calls' → calls' = calls.
Proof.
  intros [(tools & msg & Hreach & ->) | [-> Hnot]]
         [(tools' & msg' & Hreach' & ->) | [-> Hnot']].
  - by destruct (reaches_reply_unique _ _ _ _ _ _ _ Hreach Hreach') as [_ ->].
  - by destruct (Hnot' _ _ Hreach).
  - by destruct (Hnot _ _ Hreach').
  - done.
Qed.

(** C6 (amended). The tool messages a turn appends carry, in order, the
    identifiers of the tool calls the model issued in that turn, which are
    the calls of its first reply when the turn gets that far and none
    otherwise; when those identifiers are pairwise distinct, the identifier
    of each tool message is the identifier of exactly one issued call. *)
Theorem tool_messages_answer_requests w cfg u st :
  ∃ calls tail,
    messages (run_agent_turn w cfg u st).2 = messages st ++ tail ∧
    issued w cfg (messages st ++ [UserMessage u]) calls ∧
    (∀ calls', issued w cfg (messages st ++ [UserMessage u]) calls' → calls' = calls) ∧
    (tool_call_id_of <$> filter is_tool tail) = (call_id <$> calls) ∧
    (NoDup ((call_id <$> calls)) →
     ∀ m, m ∈ filter is_tool tail →
       matches_exactly_one ((call_id <$> calls)) (tool_call_id_of m)).
Proof.
  assert (∀ calls tail,
    (tool_call_id_of <$> filter is_tool tail) = (call_id <$> calls) →
    NoDup ((call_id <$> calls)) →
    ∀ m, m ∈ filter is_tool tail →
      matches_exactly_one ((call_id <$> calls)) (tool_call_id_of m)) as Hone.
  { intros calls tail Hids Hnodup m Hm.
    apply (list_elem_of_fmap_2 tool_call_id_of) in Hm. rewrite Hids in Hm.
    apply list_elem_of_lookup in Hm as [k Hk]. exists k. split; [done|].
    intros k' Hk'. by eapply NoDup_lookup. }
  assert (∀ calls,
    issued w cfg (messages st ++ [UserMessage u]) calls →
    issued w cfg (messages st ++ [UserMessage u]) calls ∧
    ∀ calls', issued w cfg (messages st ++ [UserMessage u]) calls' → calls' = calls)
    as Hpinned.
  { intros calls Hissued. split; [done|]. intros calls' Hissued'.
    by eapply issued_unique. }
  destruct (turn_cases w cfg u st) as [(tools & msg & Hreach & Hcalls) | (tail & Hmsgs & Hnone)].
  - destruct (turn_tool_calls w cfg u st tools msg Hreach Hcalls) as (last & events & Hrun).
    exists (requested_calls msg),
      ([UserMessage u; AssistantMessage (msg_content msg)] ++
       tool_replies w 0 (requested_calls msg) ++ [AssistantMessage last]).
    rewrite Hrun. simpl.
    assert (filter is_tool
              (UserMessage u :: AssistantMessage (msg_content msg)
                 :: tool_replies w 0 (requested_calls msg) ++ [AssistantMessage last])
            = tool_replies w 0 (requested_calls msg)) as Hfilter.
    { rewrite !filter_cons_False by (simpl; tauto).
      rewrite filter_app, filter_tool_replies.
      rewrite filter_cons_False by (simpl; tauto). by rewrite app_nil_r. }
    destruct (Hpinned (requested_calls msg)) as [Hissued Hunique]; [left; eauto|].
    split_and!; [done | done | done | |].
    + by rewrite Hfilter, tool_replies_ids.
    + apply Hone. by rewrite Hfilter, tool_replies_ids.
  - (* no tool message was appended: the issued calls are none *)
    assert (issued w cfg (messages st ++ [UserMessage u]) []) as Hissued.
    { destruct (reaches_reply_or_not w cfg (messages st ++ [UserMessage u]))
        as [(tools & msg & Hreach) | Hnot]; [|by right].
      left. exists tools, msg. split; [done|].
      destruct (requested_calls msg) as [|tc calls] eqn:Hcalls; [done|].
      destruct (turn_tool_calls w cfg u st tools msg Hreach) as (last & events & Hrun);
        [by rewrite Hcalls|].
      rewrite Hrun, Hcalls in Hmsgs. simpl in Hmsgs.
      apply app_inv_head in Hmsgs. injection Hmsgs as <-.
      rewrite filter_cons_False in Hnone by (simpl; tauto).
      by rewrite filter_cons_True in Hnone. }
    exists [], (UserMessage u :: tail). rewrite filter_cons_False by (simpl; tauto).
    destruct (Hpinned [] Hissued) as [_ Hunique].
    split_and!; [done | done | done | by rewrite Hnone |].
    apply Hone. by rewrite Hnone.
Qed.

Lemma tool_messages_answer_requests_witness :
  ∃ calls tail,
    messages (run_agent_turn (Scenarios.world (Return 200) Scenarios.asks_two)
                Scenarios.backend_cfg "Weather in Paris?" Scenarios.fresh).2 = tail ∧
    calls = requested_calls Scenarios.asks_two ∧
    (tool_call_id_of <$> filter is_tool tail) = [Some "call_1"; Some "call_2"] ∧
    (call_id <$> calls) = [Some "call_1"; Some "call_2"] ∧
    ∀ m, m ∈ filter is_tool tail →
      matches_exactly_one (call_id <$> calls) (tool_call_id_of m).
Proof.
  destruct (tool_messages_answer_requests (Scenarios.world (Return 200) Scenarios.asks_two)
              Scenarios.backend_cfg "Weather in Paris?" Scenarios.fresh)
    as (calls & tail & Hmsgs & _ & Hunique & Hids & Hone).
  change (messages Scenarios.fresh ++ tail) with tail in Hmsgs. subst tail.
  eexists calls, _. split; [reflexivity|].
  assert (calls = requested_calls Scenarios.asks_two) as Hpinned.
  { symmetry. apply Hunique. left.
    exists [Scenarios.weather_tool], Scenarios.asks_two.
    split; [apply reaches_reply_scenario | done]. }
  assert ((call_id <$> calls) = [Some "call_1"; Some "call_2"]) as Hcalls.
  { by rewrite <- Hids. }
  split_and!; [done | by rewrite Hids | done |].
  apply Hone. rewrite Hcalls. apply NoDup_cons. split; [|apply NoDup_singleton].
  rewrite list_elem_of_singleton. discriminate.
Defined.

(** C6 (as stated) fails when the model issues two calls under one
    identifier: the first tool message then matches two requests. *)
Lemma tool_messages_same_id_counterexample :
  ∃ tail,
    messages (run_agent_turn (Scenarios.world (Return 200) Scenarios.asks_two_same_id)
                Scenarios.backend_cfg "Weather in Paris?" Scenarios.fresh).2
      = messages Scenarios.fresh ++ tail ∧
    reaches_reply (Scenarios.world (Return 200) Scenarios.asks_two_same_id)
      Scenarios.backend_cfg [UserMessage "Weather in Paris?"] [Scenarios.weather_tool]
      Scenarios.asks_two_same_id ∧
    ¬ (∀ m, m ∈ filter is_tool tail →
         matches_exactly_one
           (call_id <$> requested_calls Scenarios.asks_two_same_id)
           (tool_call_id_of m)).
Proof.
  eexists. split; [reflexivity|]. split; [apply reaches_reply_scenario|].
  intros Hall.
  destruct (Hall (ToolMessage (Some "call_1")
                    "Tool get_current_weather call failed: timed out"))
    as (k & Hk & Huniq).
  - vm_compute. left.
  - pose proof (Huniq 0%nat eq_refl). pose proof (Huniq 1%nat eq_refl). lia.
Qed.

Lemma parse_arguments_malformed w tc :
  json_loads w "{}" = Return (JObject []) →
  malformed_arguments w tc →
  parse_arguments w tc = JObject [].
Proof.
  intros Hempty Hbad. unfold parse_arguments.
  destruct Hbad as [-> | (text & e & -> & Hraise)]; simpl.
  - by rewrite Hempty.
  - destruct text as [|a text]; simpl; [by rewrite Hempty | by rewrite Hraise].
Qed.

(** C9. A requested tool call whose arguments text is absent or is not
    valid JSON is invoked with the empty object: the turn runs to its end,
    with one tool message per requested call. *)
Theorem malformed_arguments_still_invoked w cfg u st tools msg k tc :
  json_loads w "{}" = Return (JObject []) →
  reaches_reply w cfg (messages st ++ [UserMessage u]) tools msg →
  requested_calls msg !! k = Some tc →
  malformed_arguments w tc →
  parse_arguments w tc = JObject [] ∧
  ∃ last st',
    run_agent_turn w cfg u st = (Return tt, st') ∧
    EvCallTool (call_name tc) (JObject []) ∈ trace st' ∧
    messages st' = messages st ++
      [UserMessage u; AssistantMessage (msg_content msg)] ++
      tool_replies w 0 (requested_calls msg) ++ [AssistantMessage last] ∧
    length (tool_replies w 0 (requested_calls msg)) = length (requested_calls msg).
Proof.
  intros Hempty Hreach Hk Hbad.
  pose proof (parse_arguments_malformed w tc Hempty Hbad) as Hparse.
  split; [done|].
  destruct (turn_tool_calls w cfg u st tools msg Hreach) as (last & events & Hrun).
  { intros Hnil. by rewrite Hnil in Hk. }
  exists last. eexists. split; [exact Hrun|]. cbn [trace messages]. split_and!; [|done|].
  - apply elem_of_app. right. apply elem_of_app. right. apply elem_of_app. left.
    rewrite <- Hparse. change (invocation w tc ∈ (invocation w <$> requested_calls msg)).
    apply list_elem_of_fmap_2. by eapply list_elem_of_lookup_2.
  - apply length_tool_replies.
Qed.

Lemma malformed_arguments_still_invoked_witness :
  parse_arguments (Scenarios.world (Return 200) Scenarios.asks_two) Scenarios.first_call
    = JObject [] ∧
  ∃ last st',
    run_agent_turn (Scenarios.world (Return 200) Scenarios.asks_two)
      Scenarios.backend_cfg "Weather in Paris?" Scenarios.fresh = (Return tt, st') ∧
    EvCallTool "get_current_weather" (JObject []) ∈ trace st' ∧
    messages st' = messages Scenarios.fresh ++
      [UserMessage "Weather in Paris?"; AssistantMessage None] ++
      tool_replies (Scenarios.world (Return 200) Scenarios.asks_two) 0
        [Scenarios.first_call; Scenarios.second_call] ++ [AssistantMessage last] ∧
    length (tool_replies (Scenarios.world (Return 200) Scenarios.asks_two) 0
              [Scenarios.first_call; Scenarios.second_call]) = 2%nat.
Proof.
  apply (malformed_arguments_still_invoked
           (Scenarios.world (Return 200) Scenarios.asks_two) Scenarios.backend_cfg
           "Weather in Paris?" Scenarios.fresh [Scenarios.weather_tool]
           Scenarios.asks_two 0 Scenarios.first_call).
  - reflexivity.
  - apply reaches_reply_scenario.
  - reflexivity.
  - right. exists "{city: Paris", (PyException "Expecting value"). split; reflexivity.
Defined.

End ClientProps.


(** C7. Without the model provider's key the client script stops at start
    with an error on screen, before any turn: the transcript is untouched
    and nothing else happens.  Without the weather provider's key both
    tools return a text naming the missing key, and send no request. *)
Theorem missing_api_keys :
  (∀ w cfg session_messages prompt,
     Client.OPENROUTER_API_KEY cfg = None →
     Client.script w cfg session_messages prompt =
       (Client.Stopped, session_messages,
        [Client.EvStError "OPENROUTER_API_KEY not found in environment variables."])) ∧
  (∀ cfg http city,
     Server.OPENWEATHER_API_KEY cfg = None →
     Server.get_current_weather cfg http city =
       (Return "An error occurred: OPENWEATHER_API_KEY is not set.", [])) ∧
  (∀ cfg http city days,
     Server.OPENWEATHER_API_KEY cfg = None →
     Server.get_forecast cfg http city days =
       (Return "An error occurred: OPENWEATHER_API_KEY is not set.", [])).
Proof.
  split_and!.
  - intros w cfg sm prompt Hkey. unfold Client.script. by rewrite Hkey.
  - intros cfg http city Hkey.
    unfold Server.get_current_weather, Server.current_weather_try, Server._get_weather_data.
    by rewrite Hkey.
  - intros cfg http city days Hkey.
    unfold Server.get_forecast, Server.forecast_try, Server._get_weather_data.
    by rewrite Hkey.
Qed.

Lemma missing_api_keys_witness :
  Client.script (Scenarios.world (Return 200) Scenarios.says_hello)
    Scenarios.no_model_key_cfg None (Some "Weather in Paris?") =
    (Client.Stopped, None,
     [Client.EvStError "OPENROUTER_API_KEY not found in environment variables."]) ∧
  Server.get_current_weather Samples.no_weather_key_cfg Samples.unreachable "Paris" =
    (Return "An error occurred: OPENWEATHER_API_KEY is not set.", []) ∧
  Server.get_forecast Samples.no_weather_key_cfg Samples.two_days "Paris" 3 =
    (Return "An error occurred: OPENWEATHER_API_KEY is not set.", []).
Proof.
  destruct missing_api_keys as (Hclient & Hweather & Hforecast).
  split_and!; [apply Hclient | apply Hweather | apply Hforecast]; reflexivity.
Defined.

(** ** Facts on strings *)
Module StringFacts.

Lemma string_app_nil_r (s : string) : s +:+ EmptyString = s.
Proof.
  induction s as [|c s IH]; [done|].
  change (String c (s +:+ EmptyString) = String c s). by rewrite IH.
Qed.

Lemma string_app_assoc (a b c : string) : (a +:+ b) +:+ c = a +:+ b +:+ c.
Proof.
  induction a as [|x a IH]; [done|].
  change (String x ((a +:+ b) +:+ c) = String x (a +:+ b +:+ c)). by rewrite IH.
Qed.

End StringFacts.

(** ** Further properties of the tool backend *)
Module ServerExtra.
Import Server ForecastSpec ForecastModel ServerProps StringFacts.

Lemma forecast_try_selection_witness :
  ∃ key data idx forecasts,
    OPENWEATHER_API_KEY Samples.weather_cfg = Some key ∧
    Samples.six_days (forecast_request Samples.weather_cfg key "Oslo") = Return data ∧
    (get_forecast Samples.weather_cfg Samples.six_days "Oslo" 40).1
      = Return (header "Oslo" +:+ join newline forecasts) ∧
    Forall2 (picks (default [] (list_ data))) idx forecasts ∧
    StronglySorted (later_other_date (default [] (list_ data))) idx ∧
    Z.of_nat (length forecasts) ≤ Z.max 1 (Z.min 40 5).
Proof.
  apply (forecast_try_selection Samples.weather_cfg Samples.six_days "Oslo" 40
           (header "Oslo" +:+
            join newline
              ["2024-01-01: light rain, 1.5" +:+ degree +:+ "C";
               "2024-01-02: clear sky, 3" +:+ degree +:+ "C";
               "2024-01-03: snow, 0" +:+ degree +:+ "C";
               "2024-01-04: snow, -1" +:+ degree +:+ "C";
               "2024-01-05: clear sky, 4" +:+ degree +:+ "C"])).
  reflexivity.
Defined.

Lemma complete_fields item :
  complete item →
  ∃ stamp w0 ws desc m t,
    dt_txt item = Some stamp ∧ weather item = Some (w0 :: ws) ∧
    description w0 = Some desc ∧ main item = Some m ∧ temp m = Some t ∧
    date_of item = Some (split_space_0 stamp) ∧
    line_of item =
      Some (split_space_0 stamp +:+ ": " +:+ desc +:+ ", " +:+ t +:+ degree +:+ "C").
Proof.
  intros [line Hline]. unfold line_of, date_of in *.
  destruct (dt_txt item) as [stamp|]; [|done]. simpl in *.
  destruct (weather item) as [[|w0 ws]|]; try done. simpl in *.
  destruct (description w0) as [desc|] eqn:Hdesc; [|done]. simpl in *.
  destruct (main item) as [m|]; [|done]. simpl in *.
  destruct (temp m) as [t|] eqn:Ht; [|done]. simpl in *.
  by exists stamp, w0, ws, desc, m, t.
Qed.

Lemma unseen_filter_step seen d (l : list ForecastItem) :
  filter (unseen seen) (filter (λ later, date_of later ≠ Some d) l)
  = filter (unseen (seen ∪ {[d]})) l.
Proof.
  rewrite list_filter_filter. apply list_filter_iff. intros x. unfold unseen.
  destruct (date_of x) as [d'|]; [|naive_solver].
  rewrite not_elem_of_union, not_elem_of_singleton. naive_solver.
Qed.

Lemma unseen_filter_known seen d (l : list ForecastItem) :
  d ∈ seen →
  filter (unseen seen) (filter (λ later, date_of later ≠ Some d) l)
  = filter (unseen seen) l.
Proof.
  intros Hin. apply list_filter_filter_l. intros x. unfold unseen.
  destruct (date_of x) as [d'|]; [|done]. intros Hx [= ->]. done.
Qed.

(** The loop on a list of complete entries. *)
Lemma forecast_loop_complete days items :
  Forall complete items →
  ∀ forecasts seen,
    forecast_loop days items forecasts seen =
      Return (forecasts ++
              take (Z.to_nat (Z.max 1 (days - Z.of_nat (length forecasts))))
                (omap line_of (filter (unseen seen) (first_per_date items)))).
Proof.
  induction 1 as [|item rest Hitem Hrest IH]; intros forecasts seen.
  - simpl. by rewrite take_nil, app_nil_r.
  - destruct (complete_fields item Hitem)
      as (stamp & w0 & ws & desc & m & t & Hstamp & Hw & Hdesc & Hm & Ht & Hdate & Hline).
    simpl. rewrite Hstamp. simpl. rewrite Hdate.
    destruct (decide (split_space_0 stamp ∈ seen)) as [Hin|Hnin].
    + rewrite IH. rewrite filter_cons_False.
      * by rewrite unseen_filter_known.
      * unfold unseen. rewrite Hdate. by intros H.
    + rewrite Hw. simpl. rewrite Hdesc, Hm. simpl. rewrite Ht. simpl.
      rewrite filter_cons_True by (unfold unseen; by rewrite Hdate).
      rewrite unseen_filter_step. simpl. rewrite Hline. simpl.
      rewrite length_app. simpl.
      destruct (Z.of_nat (length forecasts + 1) >=? days) eqn:Hstop.
      * rewrite Z.geb_leb in Hstop. apply Z.leb_le in Hstop.
        replace (Z.to_nat (Z.max 1 (days - Z.of_nat (length forecasts)))) with 1%nat by lia.
        simpl. by rewrite take_0.
      * rewrite Z.geb_leb in Hstop. apply Z.leb_gt in Hstop.
        rewrite IH. rewrite length_app. simpl.
        replace (Z.to_nat (Z.max 1 (days - Z.of_nat (length forecasts))))
          with (S (Z.to_nat (Z.max 1 (days - Z.of_nat (length forecasts + 1))))) by lia.
        simpl. by rewrite <- app_assoc.
Qed.

Lemma filter_unseen_empty (l : list ForecastItem) : filter (unseen ∅) l = l.
Proof.
  induction l as [|x l IH]; [done|].
  rewrite filter_cons_True; [by rewrite IH|]. unfold unseen.
  destruct (date_of x); [apply not_elem_of_empty | done].
Qed.

Lemma get_forecast_of_list cfg http city days key items :
  OPENWEATHER_API_KEY cfg = Some key → key ≠ EmptyString →
  http (forecast_request cfg key city) = Return {| list_ := Some items |} →
  (get_forecast cfg http city days).1 =
    handle "forecast"
      (forecasts ← forecast_loop (Z.min days 5) items [] ∅;
       Return (header city +:+ join newline forecasts)).
Proof.
  intros Hkey Hne Hhttp. unfold get_forecast. rewrite forecast_try_fetch.
  unfold _get_weather_data. rewrite Hkey. destruct key as [|a k]; [done|].
  unfold forecast_request in Hhttp. simpl in *. by rewrite Hhttp.
Qed.

(** X2. On a provider list whose entries are all complete, [get_forecast]
    prints the lines of the entries that open a new date, in list order,
    cut to [max 1 (min days 5)] lines. *)
Theorem get_forecast_complete_list cfg http city days key items :
  OPENWEATHER_API_KEY cfg = Some key → key ≠ EmptyString →
  http (forecast_request cfg key city) = Return {| list_ := Some items |} →
  Forall complete items →
  (get_forecast cfg http city days).1 =
    Return (header city +:+
            join newline (take (line_limit days) (omap line_of (first_per_date items)))).
Proof.
  intros Hkey Hne Hhttp Hitems.
  rewrite (get_forecast_of_list cfg http city days key items) by done.
  rewrite forecast_loop_complete by done. simpl.
  rewrite filter_unseen_empty. unfold line_limit.
  by replace (Z.min days 5 - Z.of_nat 0) with (Z.min days 5) by lia.
Qed.

Lemma get_forecast_complete_list_witness :
  (get_forecast Samples.weather_cfg Samples.six_days "Oslo" 40).1 =
    Return (header "Oslo" +:+
            join newline
              (take 5 (omap line_of
                 (first_per_date
                    [Samples.entry "2024-01-01 21:00:00" "light rain" "1.5";
                     Samples.entry "2024-01-02 00:00:00" "clear sky" "3";
                     Samples.entry "2024-01-02 03:00:00" "mist" "2";
                     Samples.entry "2024-01-03 00:00:00" "snow" "0";
                     Samples.entry "2024-01-04 00:00:00" "snow" "-1";
                     Samples.entry "2024-01-05 00:00:00" "clear sky" "4";
                     Samples.entry "2024-01-06 00:00:00" "clear sky" "5"])))).
Proof.
  apply (get_forecast_complete_list Samples.weather_cfg Samples.six_days "Oslo" 40 "k");
    [reflexivity | discriminate | reflexivity |].
  repeat constructor; by eexists.
Defined.

Lemma first_per_date_complete items :
  Forall complete items → Forall complete (first_per_date items).
Proof.
  induction 1 as [|item rest Hitem Hrest IH]; simpl; constructor; [done|].
  apply Forall_forall. intros x [_ Hx]%list_elem_of_filter.
  by eapply Forall_forall in IH.
Qed.

Lemma length_lines_complete (l : list ForecastItem) :
  Forall complete l → length (omap line_of l) = length l.
Proof.
  induction 1 as [|item rest [line Hline] Hrest IH]; [done|].
  simpl. rewrite Hline. simpl. f_equal. exact IH.
Qed.

(** Once the loop has left by [break], what follows in the list is not
    read. *)
Lemma forecast_loop_cut days more items : ∀ forecasts seen out,
  Z.of_nat (length forecasts) < days →
  forecast_loop days items forecasts seen = Return out →
  days ≤ Z.of_nat (length out) →
  forecast_loop days (items ++ more) forecasts seen = Return out.
Proof.
  induction items as [|item rest IH]; intros forecasts seen out Hroom Hrun Hfull.
  - simpl in Hrun. injection Hrun as <-. lia.
  - simpl in Hrun |- *.
    apply obind_return in Hrun as (stamp & Hstamp & Hrun). rewrite Hstamp. simpl.
    destruct (decide (split_space_0 stamp ∈ seen)) as [Hin|Hnin]; [by apply IH|].
    apply obind_return in Hrun as (w & Hw & Hrun). rewrite Hw. simpl.
    apply obind_return in Hrun as (w0 & Hw0 & Hrun). rewrite Hw0. simpl.
    apply obind_return in Hrun as (desc & Hdesc & Hrun). rewrite Hdesc. simpl.
    apply obind_return in Hrun as (m & Hm & Hrun). rewrite Hm. simpl.
    apply obind_return in Hrun as (t & Ht & Hrun). rewrite Ht. simpl.
    destruct (Z.of_nat (length (forecasts ++ _)) >=? days) eqn:Hstop; [done|].
    apply IH; [|done|done].
    rewrite Z.geb_leb in Hstop. by apply Z.leb_gt in Hstop.
Qed.

(** X3. Once a list of complete entries holds [min days 5] dates (for
    [days >= 1]), whatever the provider sends after it is not read: the
    forecast is that of the list alone, also when later entries lack
    keys. *)
Theorem get_forecast_ignores_entries_after_cut cfg http city days key items more :
  OPENWEATHER_API_KEY cfg = Some key → key ≠ EmptyString →
  http (forecast_request cfg key city) = Return {| list_ := Some (items ++ more) |} →
  Forall complete items →
  1 ≤ days →
  Z.min days 5 ≤ Z.of_nat (length (first_per_date items)) →
  (get_forecast cfg http city days).1 =
    Return (header city +:+
            join newline (take (line_limit days) (omap line_of (first_per_date items)))).
Proof.
  intros Hkey Hne Hhttp Hitems Hdays Henough.
  rewrite (get_forecast_of_list cfg http city days key (items ++ more)) by done.
  rewrite (forecast_loop_cut _ more items [] ∅
             (take (line_limit days) (omap line_of (first_per_date items)))).
  - done.
  - simpl. lia.
  - rewrite forecast_loop_complete by done. simpl. rewrite filter_unseen_empty.
    unfold line_limit. by replace (Z.min days 5 - Z.of_nat 0) with (Z.min days 5) by lia.
  - rewrite length_take, length_lines_complete by by apply first_per_date_complete.
    unfold line_limit. lia.
Qed.

Lemma get_forecast_ignores_entries_after_cut_witness :
  (get_forecast Samples.weather_cfg MoreSamples.two_then_unstamped "Paris" 2).1 =
    Return (header "Paris" +:+
            join newline
              (take 2 (omap line_of
                 (first_per_date [MoreSamples.first_day; MoreSamples.second_day])))).
Proof.
  apply (get_forecast_ignores_entries_after_cut Samples.weather_cfg
           MoreSamples.two_then_unstamped "Paris" 2 "k"
           [MoreSamples.first_day; MoreSamples.second_day] [MoreSamples.unstamped]);
    [reflexivity | discriminate | reflexivity | | lia | simpl; lia].
  repeat constructor; by eexists.
Defined.

(** As long as the cut is not reached within a first list of complete
    entries, the loop goes on with the lines and the dates of that list. *)
Lemma forecast_loop_prefix days more good :
  Forall complete good →
  ∀ forecasts seen,
    Z.of_nat (length forecasts
              + length (filter (unseen seen) (first_per_date good))) < days
    ∨ filter (unseen seen) (first_per_date good) = [] →
    forecast_loop days (good ++ more) forecasts seen =
      forecast_loop days more
        (forecasts ++ omap line_of (filter (unseen seen) (first_per_date good)))
        (seen ∪ list_to_set (omap date_of good)).
Proof.
  induction 1 as [|item rest Hitem Hrest IH]; intros forecasts seen Hroom.
  - simpl. rewrite app_nil_r. f_equal. by rewrite union_empty_r_L.
  - destruct (complete_fields item Hitem)
      as (stamp & w0 & ws & desc & m & t & Hstamp & Hw & Hdesc & Hm & Ht & Hdate & Hline).
    simpl in Hroom |- *. rewrite Hstamp, Hdate in *. simpl.
    destruct (decide (split_space_0 stamp ∈ seen)) as [Hin|Hnin].
    + rewrite filter_cons_False in * by (unfold unseen; rewrite Hdate; by intros H).
      rewrite unseen_filter_known in * by done.
      rewrite IH by done. f_equal. set_solver.
    + rewrite Hw. simpl. rewrite Hdesc, Hm. simpl. rewrite Ht. simpl.
      rewrite filter_cons_True in * by (unfold unseen; by rewrite Hdate).
      rewrite unseen_filter_step in *. simpl in Hroom. destruct Hroom as [Hroom|[=]].
      rewrite length_app. simpl.
      replace (Z.of_nat (length forecasts + 1) >=? days) with false
        by (symmetry; rewrite Z.geb_leb; apply Z.leb_gt; lia).
      rewrite IH by (left; rewrite length_app; simpl; lia).
      simpl. rewrite Hline. simpl. rewrite <- app_assoc. simpl. f_equal. set_solver.
Qed.

(** X4. When the loop reaches an entry without [dt_txt] before the cut
    (the complete entries before it hold fewer than [min days 5] dates, or
    there are none), [get_forecast] returns the error text alone: the lines
    collected so far are dropped. *)
Theorem get_forecast_entry_without_stamp cfg http city days key good bad rest :
  OPENWEATHER_API_KEY cfg = Some key → key ≠ EmptyString →
  http (forecast_request cfg key city) = Return {| list_ := Some (good ++ bad :: rest) |} →
  Forall complete good →
  dt_txt bad = None →
  good = [] ∨ Z.of_nat (length (first_per_date good)) < Z.min days 5 →
  (get_forecast cfg http city days).1 = Return "An error occurred: 'dt_txt'".
Proof.
  intros Hkey Hne Hhttp Hgood Hbad Hroom.
  rewrite (get_forecast_of_list cfg http city days key (good ++ bad :: rest)) by done.
  rewrite forecast_loop_prefix; [|done|].
  - simpl. by rewrite Hbad.
  - rewrite filter_unseen_empty. destruct Hroom as [->|Hroom]; [by right|left; simpl; lia].
Qed.

Lemma get_forecast_entry_without_stamp_witness :
  (get_forecast Samples.weather_cfg MoreSamples.two_then_unstamped "Paris" 3).1 =
    Return "An error occurred: 'dt_txt'".
Proof.
  apply (get_forecast_entry_without_stamp Samples.weather_cfg
           MoreSamples.two_then_unstamped "Paris" 3 "k"
           [MoreSamples.first_day; MoreSamples.second_day] MoreSamples.unstamped []);
    [reflexivity | discriminate | reflexivity | | reflexivity | right; simpl; lia].
  repeat constructor; by eexists.
Defined.

(** X5. [get_forecast] always returns a text and never raises, for every
    day count; on a provider HTTP error the text embeds the body of the error
    response, on any other failure of the request the message of the
    exception. *)
Theorem get_forecast_never_raises cfg http city days :
  (∃ s, (get_forecast cfg http city days).1 = Return s) ∧
  (∀ key text m,
     OPENWEATHER_API_KEY cfg = Some key → key ≠ EmptyString →
     http (forecast_request cfg key city) = Raise (HTTPStatusError text m) →
     (get_forecast cfg http city days).1
       = Return ("Error fetching forecast: " +:+ text)) ∧
  (∀ key m,
     OPENWEATHER_API_KEY cfg = Some key → key ≠ EmptyString →
     http (forecast_request cfg key city) = Raise (PyException m) →
     (get_forecast cfg http city days).1
       = Return ("An error occurred: " +:+ m)).
Proof.
  unfold get_forecast. rewrite forecast_try_fetch.
  unfold _get_weather_data, forecast_request.
  split_and!.
  - destruct (OPENWEATHER_API_KEY cfg) as [[|a k]|]; simpl; eauto using handle_total.
  - intros [|a k] text m -> Hne Hhttp; [done|]. simpl in *. by rewrite Hhttp.
  - intros [|a k] m -> Hne Hhttp; [done|]. simpl in *. by rewrite Hhttp.
Qed.

Lemma get_forecast_never_raises_witness :
  (get_forecast Samples.weather_cfg MoreSamples.forecast_city_not_found "Atlantis" 3).1
    = Return "Error fetching forecast: city not found" ∧
  (get_forecast Samples.weather_cfg MoreSamples.forecast_unreachable "Paris" 3).1
    = Return "An error occurred: All connection attempts failed".
Proof.
  split.
  - apply (proj1 (proj2 (get_forecast_never_raises Samples.weather_cfg
             MoreSamples.forecast_city_not_found "Atlantis" 3))
             "k" "city not found" "Client error 404 Not Found"); done.
  - apply (proj2 (proj2 (get_forecast_never_raises Samples.weather_cfg
             MoreSamples.forecast_unreachable "Paris" 3))
             "k" "All connection attempts failed"); done.
Defined.

(** X6. With the key set, each tool call sends exactly one request,
    whatever the provider answers and whatever the day count: to
    [<base>/weather] or [<base>/forecast], with the city, the key and metric
    units as parameters. *)
Theorem one_request_per_call cfg key city :
  OPENWEATHER_API_KEY cfg = Some key → key ≠ EmptyString →
  (∀ http, (get_current_weather cfg http city).2 = [weather_request cfg key city]) ∧
  (∀ http days, (get_forecast cfg http city days).2 = [forecast_request cfg key city]).
Proof.
  intros Hkey Hne. destruct key as [|a k]; [done|].
  unfold get_current_weather, current_weather_try, get_forecast, forecast_try,
    _get_weather_data. rewrite Hkey. by split.
Qed.

Lemma one_request_per_call_witness :
  (∀ http, (get_current_weather Samples.weather_cfg http "Paris").2
           = [weather_request Samples.weather_cfg "k" "Paris"]) ∧
  (∀ http days, (get_forecast Samples.weather_cfg http "Paris" days).2
                = [forecast_request Samples.weather_cfg "k" "Paris"]).
Proof.
  apply (one_request_per_call Samples.weather_cfg "k" "Paris"); [reflexivity | discriminate].
Defined.

(** X7. When the provider's reply has no [list] key or an empty list,
    [get_forecast] returns the header alone, for every day count. *)
Theorem get_forecast_no_entries cfg http city days key data :
  OPENWEATHER_API_KEY cfg = Some key → key ≠ EmptyString →
  http (forecast_request cfg key city) = Return data →
  list_ data = None ∨ list_ data = Some [] →
  (get_forecast cfg http city days).1 = Return (header city).
Proof.
  intros Hkey Hne Hhttp Hlist. destruct data as [l]. simpl in Hlist.
  unfold get_forecast. rewrite forecast_try_fetch.
  unfold _get_weather_data. rewrite Hkey. destruct key as [|a k]; [done|].
  unfold forecast_request in Hhttp. simpl in *. rewrite Hhttp.
  destruct Hlist as [-> | ->]; simpl; by rewrite string_app_nil_r.
Qed.

Lemma get_forecast_no_entries_witness :
  (get_forecast Samples.weather_cfg MoreSamples.without_list "Paris" 3).1
    = Return (header "Paris").
Proof.
  apply (get_forecast_no_entries Samples.weather_cfg MoreSamples.without_list "Paris" 3
           "k" {| list_ := None |}); [reflexivity | discriminate | reflexivity | by left].
Defined.

(** X8. When the provider's reply holds a first weather entry with a
    description and a main block with temperature and humidity,
    [get_current_weather] returns the one-line summary of the three. *)
Theorem get_current_weather_summary cfg http city key w0 ws m desc t h :
  OPENWEATHER_API_KEY cfg = Some key → key ≠ EmptyString →
  http (weather_request cfg key city)
    = Return {| cur_weather := Some (w0 :: ws); cur_main := Some m |} →
  description w0 = Some desc → temp m = Some t → humidity m = Some h →
  (get_current_weather cfg http city).1 =
    Return ("Current weather in " +:+ city +:+ ": " +:+ desc +:+ ", Temperature: "
            +:+ t +:+ degree +:+ "C, Humidity: " +:+ h +:+ "%").
Proof.
  intros Hkey Hne Hhttp Hdesc Ht Hh.
  unfold get_current_weather, current_weather_try, _get_weather_data.
  rewrite Hkey. destruct key as [|a k]; [done|].
  unfold weather_request in Hhttp. simpl in *. rewrite Hhttp. simpl.
  unfold summarise_current. simpl. rewrite Hdesc. simpl. rewrite Ht. simpl.
  by rewrite Hh.
Qed.

Lemma get_current_weather_summary_witness :
  (get_current_weather Samples.weather_cfg MoreSamples.misty "Paris").1 =
    Return ("Current weather in Paris: mist, Temperature: 2" +:+ degree
            +:+ "C, Humidity: 90%").
Proof.
  apply (get_current_weather_summary Samples.weather_cfg MoreSamples.misty "Paris" "k"
           {| description := Some "mist" |} []
           {| temp := Some "2"; humidity := Some "90" |} "mist" "2" "90");
    solve [reflexivity | discriminate].
Defined.

(** X9. The date of a stamp is its text before the first space: it never
    holds a space, a stamp made of a date without space, a space and a time
    gives that date whatever the time, and a stamp without space is its own
    date. *)
Theorem date_is_text_before_first_space :
  (∀ s, has_char " " (split_space_0 s) = false) ∧
  (∀ d t, has_char " " d = false → split_space_0 (d +:+ " " +:+ t) = d) ∧
  (∀ d, has_char " " d = false → split_space_0 d = d).
Proof.
  split_and!.
  - induction s as [|c s IH]; [done|]. simpl.
    destruct (Ascii.eqb c " ") eqn:Hc; [done|]. simpl. by rewrite Hc.
  - induction d as [|c d IH]; intros t Hd; [done|]. simpl in Hd.
    apply orb_false_iff in Hd as [Hc Hd].
    change (split_space_0 (String c (d +:+ " " +:+ t)) = String c d).
    simpl. rewrite Hc. by rewrite IH.
  - induction d as [|c d IH]; intros Hd; [done|]. simpl in Hd.
    apply orb_false_iff in Hd as [Hc Hd]. simpl. rewrite Hc. by rewrite IH.
Qed.

Lemma date_is_text_before_first_space_witness :
  split_space_0 ("2024-01-01" +:+ " " +:+ "21:00:00") = "2024-01-01" ∧
  split_space_0 "2024-01-01" = "2024-01-01".
Proof.
  destruct date_is_text_before_first_space as (_ & Hstamp & Hplain).
  split; [apply Hstamp | apply Hplain]; reflexivity.
Defined.

End ServerExtra.

(** ** Further properties of the agent client *)
Module ClientExtra.
Import Client TurnSpec Display TurnModel ClientProps StringFacts.

Ltac run_turn :=
  unfold mbind, M_bind, bind, try_except, external, append_message, get_messages,
    call_llm_in_thread, first_choice, mret, M_ret, ret, st_error, emit; simpl.

#[local] Arguments run_tool_calls : simpl never.

Ltac raised :=
  eexists [], _; split; [by rewrite app_nil_r | by rewrite <- ?app_assoc].

(** What the session body does to the state, by the way it ends. *)
Lemma session_body_shape w cfg st0 :
  match session_body w cfg st0 with
  | (Return _, st1) =>
      ∃ body last events,
        messages st1 = messages st0 ++ body ++ [AssistantMessage last] ∧
        trace st1 = trace st0 ++ events
  | (Raise e, st1) =>
      ∃ body events,
        messages st1 = messages st0 ++ body ∧ trace st1 = trace st0 ++ events
  end.
Proof.
  unfold session_body. run_turn.
  destruct (sse_client w (SERVER_URL cfg)) as [[]|e]; simpl; [|raised].
  destruct (client_session w) as [[]|e]; simpl; [|raised].
  destruct (session_initialize w) as [[]|e]; simpl; [|raised].
  destruct (session_list_tools w) as [tools|e]; simpl; [|raised].
  destruct (chat_completions_create w (first_request tools (messages st0)))
    as [[[|msg rest]]|e]; simpl; [raised| |raised].
  destruct (requested_calls msg) as [|tc calls] eqn:Hcalls.
  { run_turn. eexists [], (msg_content msg), _.
    split; [done | by rewrite <- ?app_assoc]. }
  run_turn. rewrite run_tool_calls_spec. simpl.
  match goal with |- context [chat_completions_create w ?r] =>
    destruct (chat_completions_create w r) as [[[|final others]]|e] end; simpl.
  - eexists (AssistantMessage (msg_content msg) :: tool_replies w 0 (tc :: calls)), _.
    split; rewrite <- ?app_assoc; simpl; reflexivity.
  - eexists (AssistantMessage (msg_content msg) :: tool_replies w 0 (tc :: calls)), _, _.
    split; rewrite <- ?app_assoc; simpl; reflexivity.
  - eexists (AssistantMessage (msg_content msg) :: tool_replies w 0 (tc :: calls)), _.
    split; rewrite <- ?app_assoc; simpl; reflexivity.
Qed.

(** X10. A turn never raises to its caller, whatever the outside does.
    It only appends to the transcript, the user message first, and its first
    effect is the health probe; the user message is all it appends when the
    probe fails, and otherwise what it appends ends with an assistant
    message. *)
Theorem turn_always_returns w cfg u st :
  (run_agent_turn w cfg u st).1 = Return tt ∧
  ∃ tail events,
    messages (run_agent_turn w cfg u st).2 = messages st ++ UserMessage u :: tail ∧
    trace (run_agent_turn w cfg u st).2
      = trace st ++ EvHttpGet (health_url cfg) :: events ∧
    (probe_failed (httpx_get w (health_url cfg)) → tail = []) ∧
    (httpx_get w (health_url cfg) = Return 200 →
     ∃ body last, tail = body ++ [AssistantMessage last]).
Proof.
  unfold run_agent_turn. run_turn.
  destruct (httpx_get w (health_url cfg)) as [status|e]; simpl.
  2: { split; [done|]. eexists [], _. rewrite <- !app_assoc. simpl.
       split_and!; [done | reflexivity | done | done]. }
  destruct (decide (status = 200)) as [->|Hstatus]; simpl.
  2: { split; [done|]. eexists [], _. rewrite <- !app_assoc. simpl.
       split_and!; [done | reflexivity | done | congruence]. }
  pose proof (session_body_shape w cfg
    {| messages := messages st ++ [UserMessage u];
       trace := trace st ++ [EvHttpGet (health_url cfg)] |}) as Hshape.
  destruct (session_body w cfg _) as [[[]|e] st1]; simpl in *.
  - destruct Hshape as (body & last & events & -> & ->). split; [done|].
    exists (body ++ [AssistantMessage last]), events. rewrite <- !app_assoc. simpl.
    split_and!; [done | done | by intros [] | eauto].
  - destruct Hshape as (body & events & -> & ->). split; [done|].
    eexists (body ++ [_]), (events ++ [_]). rewrite <- !app_assoc. simpl.
    split_and!; [done | done | by intros [] | eauto].
Qed.

Lemma turn_always_returns_witness :
  messages (run_agent_turn (Scenarios.world (Return 500) Scenarios.says_hello)
              Scenarios.backend_cfg "Hi" Scenarios.fresh).2 = [UserMessage "Hi"] ∧
  ∃ body last,
    messages (run_agent_turn (Scenarios.world (Return 200) Scenarios.says_hello)
                Scenarios.backend_cfg "Hi" Scenarios.fresh).2
      = UserMessage "Hi" :: body ++ [AssistantMessage last].
Proof.
  split.
  - destruct (turn_always_returns (Scenarios.world (Return 500) Scenarios.says_hello)
                Scenarios.backend_cfg "Hi" Scenarios.fresh)
      as (_ & tail & events & Hmsgs & _ & Hfailed & _).
    rewrite Hmsgs, Hfailed; [done | simpl; lia].
  - destruct (turn_always_returns (Scenarios.world (Return 200) Scenarios.says_hello)
                Scenarios.backend_cfg "Hi" Scenarios.fresh)
      as (_ & tail & events & Hmsgs & _ & _ & Hok).
    destruct (Hok eq_refl) as (body & last & ->). by exists body, last.
Defined.

(** X11. When the probe succeeds and a stage of the session raises before
    the model's first reply is read (opening the stream or the session,
    initialising, listing the tools, the first model call, or a reply without
    choices), the turn ends normally: the error is shown to the user, the
    transcript gains the user message and one assistant message holding the
    error text, and no tool has been invoked. *)
Theorem session_failure_becomes_assistant_message w cfg u st e :
  httpx_get w (health_url cfg) = Return 200 →
  first_failure w cfg (messages st ++ [UserMessage u]) = Some e →
  ∃ events,
    run_agent_turn w cfg u st =
      (Return tt,
       {| messages := messages st ++
            [UserMessage u; AssistantMessage (Some ("[agent error] " +:+ str_exn e))];
          trace := trace st ++ EvHttpGet (health_url cfg) :: events ++
            [EvStError ("Connection / agent runtime error: " +:+ str_exn e)] |}) ∧
    Forall (λ ev, is_call_tool ev = false ∧ is_st_error ev = false) events.
Proof.
  intros Hprobe Hfail. unfold first_failure in Hfail.
  unfold run_agent_turn, session_body. run_turn. rewrite Hprobe. simpl.
  destruct (sse_client w (SERVER_URL cfg)) as [[]|e1]; simpl in *.
  2: { injection Hfail as <-. eexists [_]. rewrite <- !app_assoc. simpl.
       split; [reflexivity | by repeat constructor]. }
  destruct (client_session w) as [[]|e1]; simpl in *.
  2: { injection Hfail as <-. eexists [_; _]. rewrite <- !app_assoc. simpl.
       split; [reflexivity | by repeat constructor]. }
  destruct (session_initialize w) as [[]|e1]; simpl in *.
  2: { injection Hfail as <-. eexists [_; _; _]. rewrite <- !app_assoc. simpl.
       split; [reflexivity | by repeat constructor]. }
  destruct (session_list_tools w) as [tools|e1]; simpl in *.
  2: { injection Hfail as <-. eexists [_; _; _; _]. rewrite <- !app_assoc. simpl.
       split; [reflexivity | by repeat constructor]. }
  destruct (chat_completions_create w (first_request tools (messages st ++ [UserMessage u])))
    as [[[|msg rest]]|e1]; simpl in *; [| done |].
  - injection Hfail as <-. eexists [_; _; _; _; _]. rewrite <- !app_assoc. simpl.
    split; [reflexivity | by repeat constructor].
  - injection Hfail as <-. eexists [_; _; _; _; _]. rewrite <- !app_assoc. simpl.
    split; [reflexivity | by repeat constructor].
Qed.

Lemma session_failure_becomes_assistant_message_witness :
  ∃ events,
    run_agent_turn MoreSamples.refusing_world Scenarios.backend_cfg "Hi" Scenarios.fresh =
      (Return tt,
       {| messages :=
            [UserMessage "Hi";
             AssistantMessage (Some "[agent error] connection refused")];
          trace := EvHttpGet "http://localhost:5000/health" :: events ++
            [EvStError "Connection / agent runtime error: connection refused"] |}) ∧
    Forall (λ ev, is_call_tool ev = false ∧ is_st_error ev = false) events.
Proof.
  apply (session_failure_becomes_assistant_message MoreSamples.refusing_world
           Scenarios.backend_cfg "Hi" Scenarios.fresh (PyException "connection refused"));
    reflexivity.
Defined.

Lemma turn_tool_calls_exact w cfg u st tools msg :
  reaches_reply w cfg (messages st ++ [UserMessage u]) tools msg →
  requested_calls msg ≠ [] →
  run_agent_turn w cfg u st =
    (Return tt,
     {| messages := after_tools w st u msg ++
          [AssistantMessage (closing w (after_tools w st u msg)).1];
        trace := trace st ++
          prelude cfg (first_request tools (messages st ++ [UserMessage u])) ++
          (invocation w <$> requested_calls msg) ++
          EvChatCreate (final_request (after_tools w st u msg))
          :: (closing w (after_tools w st u msg)).2 |}).
Proof.
  intros [Hprobe Hsse Hsession Hinit Htools (response & rest & Hchat & Hchoices)] Hcalls.
  unfold run_agent_turn, session_body. run_turn.
  rewrite Hprobe. simpl. rewrite Hsse, Hsession, Hinit, Htools. simpl.
  rewrite Hchat. simpl. rewrite Hchoices. simpl.
  unfold closing, after_tools.
  destruct (requested_calls msg) as [|tc calls] eqn:Hreq; [done|].
  run_turn. rewrite run_tool_calls_spec. simpl. rewrite <- !app_assoc. simpl.
  clear Hchat.
  destruct (chat_completions_create w _) as [[[|final others]]|e]; simpl;
    rewrite <- ?app_assoc; simpl; rewrite <- ?app_assoc; reflexivity.
Qed.

Lemma tool_replies_lookup w calls : ∀ i k tc,
  calls !! k = Some tc →
  tool_replies w i calls !! k = Some (tool_reply w (i + k) tc).
Proof.
  induction calls as [|c calls IH]; intros i k tc Hk; [done|].
  destruct k as [|k]; simpl in *.
  - injection Hk as ->. by rewrite Nat.add_0_r.
  - rewrite (IH (S i) k tc Hk). do 2 f_equal. lia.
Qed.

Lemma filter_invocations w (calls : list ToolCall) :
  filter is_call_tool (invocation w <$> calls) = invocation w <$> calls.
Proof.
  induction calls as [|c calls IH]; [done|].
  rewrite fmap_cons, filter_cons_True by done. by rewrite IH.
Qed.

Lemma invocations_no_st_error w (calls : list ToolCall) :
  filter is_st_error (invocation w <$> calls) = [].
Proof.
  induction calls as [|c calls IH]; [done|].
  by rewrite fmap_cons, filter_cons_False by (simpl; tauto).
Qed.

Lemma closing_no_call_tool w final_msgs :
  filter is_call_tool (closing w final_msgs).2 = [].
Proof.
  unfold closing.
  by destruct (chat_completions_create w _) as [[[|final others]]|e].
Qed.

(** X12. In a turn whose first reply requests tool calls, however many,
    the tool messages the turn adds are exactly one per requested call, in
    the order of the requests, the [i]-th answering the [i]-th call, and the
    tool invocations the turn makes are exactly those of the requested calls,
    in the same order. *)
Theorem tool_calls_answered_in_order w cfg u st tools msg :
  reaches_reply w cfg (messages st ++ [UserMessage u]) tools msg →
  requested_calls msg ≠ [] →
  filter is_tool (drop (length (messages st)) (messages (run_agent_turn w cfg u st).2))
    = tool_replies w 0 (requested_calls msg) ∧
  filter is_call_tool (drop (length (trace st)) (trace (run_agent_turn w cfg u st).2))
    = (invocation w <$> requested_calls msg) ∧
  length (tool_replies w 0 (requested_calls msg)) = length (requested_calls msg) ∧
  ∀ i tc, requested_calls msg !! i = Some tc →
    tool_replies w 0 (requested_calls msg) !! i = Some (tool_reply w i tc).
Proof.
  intros Hreach Hcalls. rewrite (turn_tool_calls_exact w cfg u st tools msg) by done.
  unfold after_tools. simpl. split_and!.
  - rewrite <- app_assoc, drop_app_length. simpl.
    rewrite !filter_cons_False by (simpl; tauto).
    rewrite filter_app, filter_tool_replies.
    rewrite filter_cons_False by (simpl; tauto). by rewrite app_nil_r.
  - rewrite drop_app_length. unfold prelude.
    rewrite !filter_cons_False by (simpl; tauto).
    rewrite filter_app, filter_invocations.
    rewrite filter_cons_False by (simpl; tauto).
    by rewrite closing_no_call_tool, app_nil_r.
  - apply length_tool_replies.
  - intros i tc Hi. by rewrite (tool_replies_lookup w _ 0 i tc Hi).
Qed.

Lemma tool_calls_answered_in_order_witness :
  filter is_tool
    (drop (length (messages Scenarios.fresh))
       (messages (run_agent_turn (Scenarios.world (Return 200) Scenarios.asks_two) Scenarios.backend_cfg "Weather in Paris?"
                    Scenarios.fresh).2))
    = tool_replies (Scenarios.world (Return 200) Scenarios.asks_two) 0 (requested_calls Scenarios.asks_two) ∧
  filter is_call_tool
    (drop (length (trace Scenarios.fresh))
       (trace (run_agent_turn (Scenarios.world (Return 200) Scenarios.asks_two) Scenarios.backend_cfg "Weather in Paris?"
                 Scenarios.fresh).2))
    = (invocation (Scenarios.world (Return 200) Scenarios.asks_two) <$> requested_calls Scenarios.asks_two) ∧
  length (tool_replies (Scenarios.world (Return 200) Scenarios.asks_two) 0 (requested_calls Scenarios.asks_two))
    = length (requested_calls Scenarios.asks_two) ∧
  ∀ i tc, requested_calls Scenarios.asks_two !! i = Some tc →
    tool_replies (Scenarios.world (Return 200) Scenarios.asks_two) 0 (requested_calls Scenarios.asks_two) !! i
      = Some (tool_reply (Scenarios.world (Return 200) Scenarios.asks_two) i tc).
Proof.
  apply (tool_calls_answered_in_order (Scenarios.world (Return 200) Scenarios.asks_two) Scenarios.backend_cfg "Weather in Paris?"
           Scenarios.fresh [Scenarios.weather_tool] Scenarios.asks_two);
    [apply reaches_reply_scenario | discriminate].
Defined.

(** X13. After the tool loop the model is called a second time, with the
    whole transcript up to the last tool message and without tool
    declarations.  When that call returns a choice, its content closes the
    turn and no error is shown; when it raises or returns no choice, the
    tool messages stay and the error text closes the turn. *)
Theorem final_model_call_closes_turn w cfg u st tools msg :
  reaches_reply w cfg (messages st ++ [UserMessage u]) tools msg →
  requested_calls msg ≠ [] →
  EvChatCreate (final_request (after_tools w st u msg))
    ∈ trace (run_agent_turn w cfg u st).2 ∧
  req_tools (final_request (after_tools w st u msg)) = None ∧
  match chat_completions_create w (final_request (after_tools w st u msg)) with
  | Return response =>
      match choices response with
      | final :: _ =>
          messages (run_agent_turn w cfg u st).2
            = after_tools w st u msg ++ [AssistantMessage (msg_content final)] ∧
          filter is_st_error
            (drop (length (trace st)) (trace (run_agent_turn w cfg u st).2)) = []
      | [] =>
          messages (run_agent_turn w cfg u st).2
            = after_tools w st u msg ++
              [AssistantMessage (Some "[agent error] list index out of range")]
      end
  | Raise e =>
      messages (run_agent_turn w cfg u st).2
        = after_tools w st u msg ++
          [AssistantMessage (Some ("[agent error] " +:+ str_exn e))]
  end.
Proof.
  intros Hreach Hcalls. rewrite (turn_tool_calls_exact w cfg u st tools msg) by done.
  cbn [snd messages trace]. split_and!; [|done|].
  - rewrite !elem_of_app. right. right. right. left.
  - unfold closing.
    destruct (chat_completions_create w _) as [[[|final others]]|e]; simpl; try done.
    split; [done|]. rewrite drop_app_length. unfold prelude.
    rewrite !filter_cons_False by (simpl; tauto).
    rewrite filter_app, filter_cons_False by (simpl; tauto).
    rewrite app_nil_r. apply invocations_no_st_error.
Qed.

Lemma final_model_call_closes_turn_witness :
  messages (run_agent_turn (Scenarios.world (Return 200) Scenarios.asks_two) Scenarios.backend_cfg "Weather in Paris?"
              Scenarios.fresh).2
    = after_tools (Scenarios.world (Return 200) Scenarios.asks_two) Scenarios.fresh "Weather in Paris?" Scenarios.asks_two ++
      [AssistantMessage (Some "It will rain in Paris.")].
Proof.
  destruct (final_model_call_closes_turn (Scenarios.world (Return 200) Scenarios.asks_two) Scenarios.backend_cfg "Weather in Paris?"
              Scenarios.fresh [Scenarios.weather_tool] Scenarios.asks_two
              (reaches_reply_scenario _ _)) as (_ & _ & Hclose); [discriminate|].
  exact (proj1 Hclose).
Defined.

Lemma startswith_refl s : startswith s s = true.
Proof. induction s as [|c s IH]; [done|]. simpl. by rewrite Ascii.eqb_refl. Qed.

Lemma replace_from_skip old new s : ∀ k,
  (String.length s ≤ k)%nat → replace_from old new k s = EmptyString.
Proof.
  induction s as [|c s IH]; intros k Hk; [done|].
  simpl in Hk. destruct k as [|k]; [lia|]. simpl. apply IH. lia.
Qed.

Lemma replace_last_segment a o new base :
  find (String a o) (base +:+ String a o) = Some (String.length base) →
  replace (String a o) new (base +:+ String a o) = base +:+ new.
Proof.
  unfold replace. induction base as [|c base IH]; intros Hfind.
  - change (EmptyString +:+ String a o) with (String a o).
    change (EmptyString +:+ new) with new.
    change (replace_from (String a o) new 0 (String a o))
      with (if startswith (String a o) (String a o)
            then new +:+ replace_from (String a o) new
                           (String.length (String a o) - 1) o
            else String a (replace_from (String a o) new 0 o)).
    rewrite startswith_refl, replace_from_skip by (simpl; lia).
    apply string_app_nil_r.
  - change (String c base +:+ String a o) with (String c (base +:+ String a o)) in *.
    change (String c base +:+ new) with (String c (base +:+ new)).
    simpl in Hfind. simpl.
    destruct (Ascii.eqb a c && startswith o (base +:+ String a o))%bool eqn:Hstart.
    + destruct (Ascii.eqb a c); simpl in Hstart; [|done].
      rewrite Hstart in Hfind. done.
    + assert ((if Ascii.eqb a c then startswith o (base +:+ String a o) else false) = false)
        as Hno by by destruct (Ascii.eqb a c).
      rewrite Hno in Hfind |- *.
      destruct (find (String a o) (base +:+ String a o)) as [n|] eqn:Hn; [|done].
      injection Hfind as ->. by rewrite IH.
Qed.

Lemma replace_absent old new s :
  find old s = None → replace old new s = s.
Proof.
  unfold replace. induction s as [|c s IH]; intros Hfind; [done|].
  simpl in Hfind. change (replace_from old new 0 (String c s))
    with (if startswith old (String c s)
          then new +:+ replace_from old new (String.length old - 1) s
          else String c (replace_from old new 0 s)).
  destruct (startswith old (String c s)); [done|].
  destruct (find old s); [done|]. by rewrite IH.
Qed.

(** X14. When the only occurrence of the mount segment in the server URL
    is its ending, the health URL is the server URL with that ending
    replaced by the health segment; when the server URL holds no mount
    segment, the probe goes to the server URL itself. *)
Theorem health_url_of_mount_segment cfg :
  (∀ base,
     SERVER_URL cfg = base +:+ "/mcp" →
     find "/mcp" (SERVER_URL cfg) = Some (String.length base) →
     health_url cfg = base +:+ "/health") ∧
  (find "/mcp" (SERVER_URL cfg) = None → health_url cfg = SERVER_URL cfg).
Proof.
  unfold health_url. split.
  - intros base Hurl Hfind. rewrite Hurl in *. by apply replace_last_segment.
  - apply replace_absent.
Qed.

Lemma health_url_of_mount_segment_witness :
  health_url Scenarios.backend_cfg = "http://localhost:5000" +:+ "/health" ∧
  health_url {| SERVER_URL := "http://localhost:5000/sse"; OPENROUTER_API_KEY := None |}
    = "http://localhost:5000/sse".
Proof.
  split.
  - apply (proj1 (health_url_of_mount_segment Scenarios.backend_cfg)
             "http://localhost:5000"); reflexivity.
  - apply (proj2 (health_url_of_mount_segment
             {| SERVER_URL := "http://localhost:5000/sse"; OPENROUTER_API_KEY := None |}));
      reflexivity.
Defined.

Lemma render_app a b : render (a ++ b) = render a ++ render b.
Proof.
  induction a as [|[c|c|id c] a IH]; simpl; [done| | |]; try by rewrite IH.
  destruct (truthy_str c); simpl; by rewrite IH.
Qed.

Lemma render_tool_replies w calls : ∀ i,
  length (render (tool_replies w i calls)) = length calls ∧
  Forall (λ b, bubble_role b = tool) (render (tool_replies w i calls)).
Proof.
  induction calls as [|c calls IH]; intros i; [by split|].
  destruct (IH (S i)) as [Hlen Hall]. simpl. split; [by rewrite Hlen | by constructor].
Qed.

(** X15. After a turn with tool calls whose first reply carried no text,
    the display gains the user's bubble, one tool bubble per requested call
    and the closing assistant bubble (none if the closing content is empty):
    the assistant entry that precedes the tool messages is not shown. *)
Theorem display_after_tool_turn w cfg u st tools msg :
  reaches_reply w cfg (messages st ++ [UserMessage u]) tools msg →
  requested_calls msg ≠ [] →
  truthy_str (msg_content msg) = false →
  render (messages (run_agent_turn w cfg u st).2) =
    render (messages st) ++
    {| bubble_role := user; bubble_widget := StMarkdown u |}
    :: render (tool_replies w 0 (requested_calls msg)) ++
       render [AssistantMessage (closing w (after_tools w st u msg)).1] ∧
  length (render (tool_replies w 0 (requested_calls msg)))
    = length (requested_calls msg) ∧
  Forall (λ b, bubble_role b = tool) (render (tool_replies w 0 (requested_calls msg))).
Proof.
  intros Hreach Hcalls Hblank. rewrite (turn_tool_calls_exact w cfg u st tools msg) by done.
  cbn [snd messages]. unfold after_tools at 1. rewrite !render_app.
  split; [|apply render_tool_replies].
  cbn [render]. rewrite Hblank. by rewrite <- !app_assoc.
Qed.

Lemma display_after_tool_turn_witness :
  render (messages (run_agent_turn (Scenarios.world (Return 200) Scenarios.asks_two) Scenarios.backend_cfg "Weather in Paris?"
                      Scenarios.fresh).2) =
    [ {| bubble_role := user; bubble_widget := StMarkdown "Weather in Paris?" |};
      {| bubble_role := tool;
         bubble_widget :=
           StText "Tool Output: Tool get_current_weather call failed: timed out" |};
      {| bubble_role := tool;
         bubble_widget := StText ("Tool Output: Forecast for Paris:" +:+ newline) |};
      {| bubble_role := assistant;
         bubble_widget := StMarkdown "It will rain in Paris." |} ].
Proof.
  destruct (display_after_tool_turn (Scenarios.world (Return 200) Scenarios.asks_two) Scenarios.backend_cfg "Weather in Paris?"
              Scenarios.fresh [Scenarios.weather_tool] Scenarios.asks_two
              (reaches_reply_scenario _ _)) as (Hshown & _ & _);
    [discriminate | reflexivity |].
  rewrite Hshown. reflexivity.
Defined.

(** X16. A run of the script never drops entries of the transcript: what
    is kept extends what was there.  Without a prompt (none, or an empty
    one) nothing is appended and nothing happens but, at most, the error
    shown for the missing key; the script asks for a rerun exactly when the
    key is set and a non-empty prompt was submitted. *)
Theorem script_never_drops_entries w cfg session_messages prompt :
  ∃ tail,
    default [] (script w cfg session_messages prompt).1.2
      = default [] session_messages ++ tail ∧
    (truthy_str prompt = false →
       tail = [] ∧
       Forall (λ ev, is_st_error ev = true) (script w cfg session_messages prompt).2) ∧
    ((script w cfg session_messages prompt).1.1 = Rerun ↔
       truthy_str (OPENROUTER_API_KEY cfg) = true ∧ truthy_str prompt = true).
Proof.
  unfold script. destruct (truthy_str (OPENROUTER_API_KEY cfg)).
  - destruct (truthy_str prompt) eqn:Hprompt.
    + assert (∃ tail,
        messages (run_agent_turn w cfg (default EmptyString prompt)
                    {| messages := default [] session_messages; trace := [] |}).2
          = default [] session_messages ++ tail) as [tail Hmsgs].
      { destruct (turn_cases w cfg (default EmptyString prompt)
                    {| messages := default [] session_messages; trace := [] |})
          as [(tools & msg & Hreach & Hcalls) | (tail & Hmsgs & _)].
        - destruct (turn_tool_calls w cfg _ _ tools msg Hreach Hcalls)
            as (last & events & ->). by eexists.
        - by eexists. }
      destruct (run_agent_turn w cfg _ _) as [o st1]. simpl in *.
      eexists. split_and!; [exact Hmsgs | done | done].
    + exists []. simpl. rewrite app_nil_r. split_and!; [done | done | ].
      split; [done | by intros [_ [=]]].
  - exists []. simpl. rewrite app_nil_r. split_and!; [done | | ].
    + intros _. split; [done | by repeat constructor].
    + split; [done | by intros [[=] _]].
Qed.

Lemma script_never_drops_entries_witness :
  ∃ tail,
    default [] (script (Scenarios.world (Return 200) Scenarios.says_hello)
                  Scenarios.backend_cfg (Some [UserMessage "earlier"]) (Some EmptyString)).1.2
      = [UserMessage "earlier"] ++ tail ∧
    tail = [] ∧
    (script (Scenarios.world (Return 200) Scenarios.says_hello)
       Scenarios.backend_cfg (Some [UserMessage "earlier"]) (Some "Hi")).1.1 = Rerun.
Proof.
  destruct (script_never_drops_entries (Scenarios.world (Return 200) Scenarios.says_hello)
              Scenarios.backend_cfg (Some [UserMessage "earlier"]) (Some EmptyString))
    as (tail & Hkept & Hidle & _).
  destruct (script_never_drops_entries (Scenarios.world (Return 200) Scenarios.says_hello)
              Scenarios.backend_cfg (Some [UserMessage "earlier"]) (Some "Hi"))
    as (_ & _ & _ & Hrerun).
  exists tail. split_and!; [exact Hkept | by apply Hidle | by apply Hrerun].
Defined.

Lemma format_content_acc blocks : ∀ acc,
  format_content blocks acc = acc +:+ lines_text blocks.
Proof.
  induction blocks as [|b blocks IH]; intros acc.
  - simpl. by rewrite string_app_nil_r.
  - destruct b; simpl; rewrite IH, !string_app_assoc; done.
Qed.

(** X17. The text of a tool message for a result with content blocks is
    the text of each block followed by a newline, text blocks and others
    alike, so that the text for two lists of blocks put together is the two
    texts put together; a result without content is stored as its string. *)
Theorem tool_text_is_one_line_per_block :
  (∀ blocks, format_result (WithContent blocks) = lines_text blocks) ∧
  (∀ a b, format_result (WithContent (a ++ b))
          = format_result (WithContent a) +:+ format_result (WithContent b)) ∧
  (∀ str, format_result (WithoutContent str) = str).
Proof.
  assert (∀ blocks, format_result (WithContent blocks) = lines_text blocks) as Hlines.
  { intros blocks. simpl. by rewrite format_content_acc. }
  split_and!; [done | | done].
  intros a b. rewrite !Hlines. unfold lines_text.
  induction a as [|x a IH]; [done|].
  simpl. by rewrite IH, !string_app_assoc.
Qed.

End ClientExtra.
